(** * Pollbot: the watch engine of the Poll Everywhere monitors

    A shallow embedding of the four watcher scripts of the repository
    ([pollwatch_telegram.py], [pollwatch_phone.py], [pollwatch_sms.py] and
    [web_app.py]): the regular-expression based extraction of the activity
    from the page markup, the per-tick transition logic of the watch loops
    with their persisted state, the loading of the state file, and the
    registry of running monitors of the web application.

    Conventions.
    - A Python [str] is a [string]; a character is a code point below 256
      (Rocq's [ascii]).  On that range the classes [\d] and [\s] and the
      case folding of [re.I] are the ones written out below.
    - [None] is [None]; an optional string is [option string]; Python
      truthiness of such a value is [truthy].
    - An exception is a value [Raise e] of the type [result].
    - The libraries are seen through what the scripts use of them: [re]
      through a matcher for the patterns of the scripts, [requests] through
      the answer it returns or the exception it raises, [json] through the
      value it loads, the gateways through whether they accept a message.
    - Logging and the wording of the messages are left out: an alert is
      recorded with its reason and the id and title it is rendered from. *)

From Stdlib Require Import Ascii String ZArith Lia Bool List.
From stdpp Require Import base option list gmap strings.
Import ListNotations.

Local Open Scope string_scope.
Local Open Scope list_scope.

(** ** Python values and exceptions *)

Inductive exn : Type :=
| TypeError          (* a call received an argument of the wrong type *)
| AttributeError     (* a method looked up on an object that lacks it *)
| KeyError           (* a key looked up in a dict that lacks it *)
| ValueError         (* text that is not UTF-8 or not JSON *)
| OSError            (* a file that cannot be opened or read *)
| RuntimeError       (* raised by the senders on a gateway error *)
| RequestException.  (* the HTTP client failed: timeout, connection error *)

Inductive result (A : Type) : Type :=
| Ok (a : A)
| Raise (e : exn).
Arguments Ok {A} a.
Arguments Raise {A} e.

(** What a call site may hand to a parameter documented as a string. *)
Inductive pyobj : Type :=
| PyStr (s : string)
| PyFlag (n : Z).    (* a member of [re.RegexFlag], such as [re.I] *)

(** [re.I], alias [re.IGNORECASE]. *)
Definition re_I : pyobj := PyFlag 2.

(** [bool(x)] for an optional string: [None] and the empty string are false. *)
Definition truthy (x : option string) : bool :=
  match x with
  | None => false
  | Some s => negb (String.eqb s EmptyString)
  end.

(** [a or b] on optional strings. *)
Definition py_or (a b : option string) : option string :=
  if truthy a then a else b.

(** [a == b] on optional strings. *)
Definition py_eq (a b : option string) : bool :=
  match a, b with
  | None, None => true
  | Some x, Some y => String.eqb x y
  | _, _ => false
  end.

(** ** Characters *)

Definition dq : ascii := ascii_of_nat 34.    (* the double quote *)
Definition sq : ascii := ascii_of_nat 39.    (* the single quote *)

Definition code (c : ascii) : nat := nat_of_ascii c.

(** [str.lower] on one character: A-Z and the Latin-1 capitals. *)
Definition lower (c : ascii) : ascii :=
  let n := code c in
  if ((65 <=? n) && (n <=? 90))%nat then ascii_of_nat (n + 32)
  else if ((192 <=? n) && (n <=? 222) && negb (n =? 215))%nat
       then ascii_of_nat (n + 32)
  else c.

(** [str.isspace]: what [\s] and [str.strip] take for white space. *)
Definition is_space (c : ascii) : bool :=
  let n := code c in
  (((9 <=? n) && (n <=? 13)) || ((28 <=? n) && (n <=? 32))
   || (n =? 133) || (n =? 160))%nat.

(** [\d]: the decimal digits. *)
Definition is_digit (c : ascii) : bool :=
  let n := code c in ((48 <=? n) && (n <=? 57))%nat.

Definition ascii_in (c : ascii) (cs : list ascii) : bool :=
  existsb (Ascii.eqb c) cs.

(** ** Regular expressions

    The fragment of [re] that the scripts use: literal text, character
    classes under bounded or unbounded greedy repetition, concatenation,
    alternation and one capturing group.  Every pattern of the scripts is
    compiled with [re.I], so literal text is compared up to case. *)

Inductive cclass : Type :=
| CDigit                          (* \d *)
| CSpace                          (* \s *)
| CNot (cs : list ascii)          (* [^...] *)
| COneOf (cs : list ascii)        (* [...] *)
| CRange (lo hi : ascii).         (* [lo-hi] *)

Definition in_class (k : cclass) (c : ascii) : bool :=
  match k with
  | CDigit => is_digit c
  | CSpace => is_space c
  | CNot cs => negb (ascii_in c cs)
  | COneOf cs => ascii_in c cs
  | CRange lo hi => ((code lo <=? code c) && (code c <=? code hi))%nat
  end.

Inductive regex : Type :=
| Lit (l : string)                               (* literal text *)
| Rep (k : cclass) (lo : nat) (hi : option nat)  (* k{lo,hi}, greedy *)
| Cat (r1 r2 : regex)
| Alt (r1 r2 : regex)
| Grp (r : regex).                               (* capturing group 1 *)

Declare Scope regex_scope.
Delimit Scope regex_scope with re.
Bind Scope regex_scope with regex.
Notation "a ∙ b" := (Cat a b) (at level 41, right associativity) : regex_scope.
Notation "a ∥ b" := (Alt a b) (at level 42, right associativity) : regex_scope.

Local Open Scope regex_scope.

Definition One (k : cclass) : regex := Rep k 1 (Some 1).   (* k *)
Definition Star (k : cclass) : regex := Rep k 0 None.      (* k* *)
Definition Plus (k : cclass) : regex := Rep k 1 None.      (* k+ *)
Definition Q : regex := One (COneOf [dq]).                 (* a double quote *)

(** The text of group 1 of a match, if the group took part in it. *)
Definition capture : Type := option (list ascii).

(** Matching a literal at the head of the subject, up to case. *)
Fixpoint match_lit (l : string) (s : list ascii) : option (list ascii) :=
  match l with
  | EmptyString => Some s
  | String a l' =>
      match s with
      | c :: s' => if Ascii.eqb (lower a) (lower c) then match_lit l' s' else None
      | [] => None
      end
  end.

Definition can_more (hi : option nat) : bool :=
  match hi with Some 0 => false | _ => true end.

(** Greedy repetition of a class with backtracking: take one more character
    while allowed, and fall back to stopping here once [lo] are taken. *)
Fixpoint rep {A} (p : ascii -> bool) (lo : nat) (hi : option nat)
    (s : list ascii) (k : list ascii -> option A) : option A :=
  let stop := if (lo =? 0)%nat then k s else None in
  match s with
  | c :: s' =>
      if p c && can_more hi then
        match rep p (Nat.pred lo) (Nat.pred <$> hi) s' k with
        | Some x => Some x
        | None => stop
        end
      else stop
  | [] => stop
  end.

(** The backtracking matcher, in continuation-passing style: alternatives are
    tried in the order of [re], and the first complete match wins. *)
Fixpoint run {A} (r : regex) (s : list ascii) (g : capture)
    (k : list ascii -> capture -> option A) : option A :=
  match r with
  | Lit l =>
      match match_lit l s with
      | Some s' => k s' g
      | None => None
      end
  | Rep c lo hi => rep (in_class c) lo hi s (fun s' => k s' g)
  | Cat a b => run a s g (fun s1 g1 => run b s1 g1 k)
  | Alt a b =>
      match run a s g k with
      | Some x => Some x
      | None => run b s g k
      end
  | Grp a =>
      run a s g (fun s1 _ => k s1 (Some (take (length s - length s1) s)))
  end.

(** [pattern.match] at the head of the subject. *)
Definition match_here (r : regex) (s : list ascii) : option capture :=
  run r s None (fun _ g => Some g).

(** The leftmost match. *)
Fixpoint search_list (r : regex) (s : list ascii) : option capture :=
  match match_here r s with
  | Some g => Some g
  | None =>
      match s with
      | [] => None
      | _ :: s' => search_list r s'
      end
  end.

(** A match object, reduced to what the scripts read from it: [m.group(1)]. *)
Record match_obj : Type := { group1 : option string }.

Definition search_str (r : regex) (s : string) : option match_obj :=
  match search_list r (list_ascii_of_string s) with
  | Some g => Some {| group1 := string_of_list_ascii <$> g |}
  | None => None
  end.

(** [re.search(pattern, string)] and [pattern.search(string)]: a subject that
    is not a string raises [TypeError]. *)
Definition re_search (r : regex) (subject : pyobj) : result (option match_obj) :=
  match subject with
  | PyStr s => Ok (search_str r s)
  | PyFlag _ => Raise TypeError
  end.

(** [re.sub(r"\s+", " ", s)]: each maximal run of white space becomes one
    space. *)
Fixpoint sub_spaces (in_run : bool) (s : list ascii) : list ascii :=
  match s with
  | [] => []
  | c :: s' =>
      if is_space c
      then (if in_run then sub_spaces true s' else " "%char :: sub_spaces true s')
      else c :: sub_spaces false s'
  end.

Fixpoint lstrip (s : list ascii) : list ascii :=
  match s with
  | c :: s' => if is_space c then lstrip s' else s
  | [] => []
  end.

(** [str.strip()]. *)
Definition strip_list (s : list ascii) : list ascii :=
  rev (lstrip (rev (lstrip s))).

Definition strip (s : string) : string :=
  string_of_list_ascii (strip_list (list_ascii_of_string s)).

(** [re.sub(r"\s+", " ", s).strip()], the normalisation of a title. *)
Definition normalize_title (s : string) : string :=
  string_of_list_ascii
    (strip_list (sub_spaces false (list_ascii_of_string s))).

Definition qstr (s : string) : string := String dq (s ++ String dq EmptyString).

(** The least number of characters that a match of [r] takes. *)
Fixpoint min_len (r : regex) : nat :=
  match r with
  | Lit l => String.length l
  | Rep _ lo _ => lo
  | Cat a b => min_len a + min_len b
  | Alt a b => Nat.min (min_len a) (min_len b)
  | Grp a => min_len a
  end.

(** Every capturing group of [r] takes at least one character. *)
Fixpoint groups_nonempty (r : regex) : bool :=
  match r with
  | Lit _ | Rep _ _ _ => true
  | Cat a b | Alt a b => groups_nonempty a && groups_nonempty b
  | Grp a => (1 <=? min_len a)%nat && groups_nonempty a
  end.

(** ** Sequencing of calls that may raise *)

Definition bind {A B} (m : result A) (f : A -> result B) : result B :=
  match m with
  | Ok a => f a
  | Raise e => Raise e
  end.

Notation "'let*' x ':=' m 'in' k" := (bind m (fun x => k))
  (at level 10, x pattern, m at level 100, k at level 200).

(** The triple [(activity_id, accepting_flag, title)] of [extract_activity]. *)
Record extraction : Type := {
  activity_id : option string;
  accepting : bool;
  title : option string
}.

(** [return None, False, None] *)
Definition inactive : extraction :=
  {| activity_id := None; accepting := false; title := None |}.

(** [for pat in ID_PATTERNS: m = pat.search(html); if m: ...; break] *)
Fixpoint first_id (pats : list regex) (html : pyobj) : result (option string) :=
  match pats with
  | [] => Ok None
  | pat :: rest =>
      let* m := re_search pat html in
      match m with
      | Some mo => Ok (group1 mo)
      | None => first_id rest html
      end
  end.

(** [title = re.sub(r"\s+", " ", m_title.group(1)).strip()] under
    [if m_title:]. *)
Definition title_of (m_title : option match_obj) : option string :=
  match m_title with
  | Some mo => normalize_title <$> group1 mo
  | None => None
  end.

Definition is_some {A} (o : option A) : bool :=
  match o with Some _ => true | None => false end.

(** Patterns shared by the scripts. *)
Definition pat_data_activity_id : regex :=
  Lit "data-activity-id=" ∙ Q ∙ Grp (Plus (CNot [dq])) ∙ Q.
Definition pat_activity_id_field : regex :=
  Lit "name=" ∙ Q ∙ Lit "activity_id" ∙ Q ∙ Plus CSpace ∙ Lit "value=" ∙ Q
  ∙ Grp (Plus (CNot [dq])) ∙ Q.
Definition pat_activityId_json : regex :=
  Q ∙ Lit "activityId" ∙ Q ∙ Star CSpace ∙ Lit ":" ∙ Star CSpace ∙ Q
  ∙ Grp (Plus (CNot [dq])) ∙ Q.
Definition pat_response_root : regex :=
  Lit "id=" ∙ Q ∙ Lit "response_root_question_" ∙ Grp (Plus CDigit) ∙ Q.
Definition pat_all_submissions : regex :=
  Lit "id=" ∙ Q ∙ Lit "all_submissions_question_" ∙ Grp (Plus CDigit) ∙ Q.

Definition lt : ascii := "<"%char.
Definition gt : ascii := ">"%char.

(** [<h1[^>]*>([^<]{5,200})</h1>] and its [h2] twin. *)
Definition pat_heading (tag : string) : regex :=
  Lit "<" ∙ Lit tag ∙ Star (CNot [gt]) ∙ Lit ">"
  ∙ Grp (Rep (CNot [lt]) 5 (Some 200)) ∙ Lit "</" ∙ Lit tag ∙ Lit ">".

(** [<h[1-6][^>]*>([^<]{10,200})</h[1-6]>] *)
Definition pat_any_heading : regex :=
  Lit "<h" ∙ One (CRange "1" "6") ∙ Star (CNot [gt]) ∙ Lit ">"
  ∙ Grp (Rep (CNot [lt]) 10 (Some 200)) ∙ Lit "</h" ∙ One (CRange "1" "6")
  ∙ Lit ">".

(** [(waiting)] *)
Definition WAITING_HINT : regex := Grp (Lit "waiting").

(** The vocabulary of the Telegram, phone and web scripts. *)
Definition ACCEPTING_HINTS_long : regex :=
  Grp (Lit "audience submissions" ∥ Lit "responding to the presenter"
       ∥ Lit "you may respond" ∥ Lit "accepting responses" ∥ Lit "respond"
       ∥ Lit "submit" ∥ Lit "send response" ∥ Lit "vote now").

(** ** The watch state and one tick of a watch loop *)

(** The dictionary [state], persisted in [poll_state.json]; a field is what
    [state.get(key)] returns, a string or [None] as the loops store them. *)
Record watch_state : Type := {
  last_seen_id : option string;
  state_etag : option string;
  state_last_modified : option string;
  alerted_accepting_for_id : option string
}.

(** The variables of [main] that live across iterations of the loop. *)
Record loop : Type := {
  last_id : option string;
  etag : option string;
  last_modified : option string;
  state : watch_state
}.

(** The answer of the server, as far as the loop reads it. *)
Record response : Type := {
  status_code : Z;
  hdr_etag : option string;            (* resp.headers.get("ETag") *)
  hdr_last_modified : option string;   (* resp.headers.get("Last-Modified") *)
  text : string
}.

(** The outcome of [sess.get]: it raises, or it returns a response. *)
Inductive fetch : Type :=
| Unreachable
| Responds (resp : response).

(** [resp.ok]: the status is not a 4xx or 5xx error. *)
Definition ok (resp : response) : bool :=
  negb ((400 <=? status_code resp)%Z && (status_code resp <? 600)%Z).

(** The variable [reason]. *)
Inductive reason : Type :=
| NewActivityLive      (* New activity is live *)
| NowAccepting.        (* Activity is now accepting responses *)

(** What the message of an alert is rendered from. *)
Record alert : Type := {
  why : reason;
  about_id : option string;
  about_title : option string
}.

(** The effects of a tick that are visible outside the loop. *)
Inductive event : Type :=
| Sent (a : alert)           (* the sender was called and returned *)
| Saved (st : watch_state).  (* [save_state(state)] wrote the file *)

(** A step of the loop body: it reads and updates the variables, may raise,
    and leaves a trace of events.  Assignments made before an exception is
    raised persist, as they do in Python. *)
Definition M (A : Type) : Type := loop -> result A * loop * list event.

#[global] Instance M_ret : MRet M := fun A a l => (Ok a, l, []).

#[global] Instance M_bind : MBind M := fun A B f m l =>
  match m l with
  | (Ok a, l1, ev1) =>
      match f a l1 with
      | (r, l2, ev2) => (r, l2, ev1 ++ ev2)
      end
  | (Raise e, l1, ev1) => (Raise e, l1, ev1)
  end.

Definition get : M loop := fun l => (Ok l, l, []).
Definition raise {A} (e : exn) : M A := fun l => (Raise e, l, []).
Definition emit (e : event) : M unit := fun l => (Ok tt, l, [e]).
Definition lift {A} (r : result A) : M A := fun l => (r, l, []).
Definition pass : M unit := mret tt.

Definition with_last_seen_id (v : option string) (s : watch_state) :=
  {| last_seen_id := v; state_etag := state_etag s;
     state_last_modified := state_last_modified s;
     alerted_accepting_for_id := alerted_accepting_for_id s |}.
Definition with_state_etag (v : option string) (s : watch_state) :=
  {| last_seen_id := last_seen_id s; state_etag := v;
     state_last_modified := state_last_modified s;
     alerted_accepting_for_id := alerted_accepting_for_id s |}.
Definition with_state_last_modified (v : option string) (s : watch_state) :=
  {| last_seen_id := last_seen_id s; state_etag := state_etag s;
     state_last_modified := v;
     alerted_accepting_for_id := alerted_accepting_for_id s |}.
Definition with_alerted (v : option string) (s : watch_state) :=
  {| last_seen_id := last_seen_id s; state_etag := state_etag s;
     state_last_modified := state_last_modified s;
     alerted_accepting_for_id := v |}.

(** [last_id = v] *)
Definition set_last_id (v : option string) : M unit := fun l =>
  (Ok tt, {| last_id := v; etag := etag l; last_modified := last_modified l;
             state := state l |}, []).
(** [etag = v] *)
Definition set_etag (v : option string) : M unit := fun l =>
  (Ok tt, {| last_id := last_id l; etag := v;
             last_modified := last_modified l; state := state l |}, []).
(** [last_modified = v] *)
Definition set_last_modified (v : option string) : M unit := fun l =>
  (Ok tt, {| last_id := last_id l; etag := etag l; last_modified := v;
             state := state l |}, []).
(** [state[key] = v], through one of the four updates above. *)
Definition set_state (upd : watch_state -> watch_state) : M unit := fun l =>
  (Ok tt, {| last_id := last_id l; etag := etag l;
             last_modified := last_modified l; state := upd (state l) |}, []).

(** [save_state(state)]; the file system is taken to accept the write. *)
Definition save_state : M unit := fun l => (Ok tt, l, [Saved (state l)]).

(** [resp = sess.get(url, ...)] *)
Definition sess_get (f : fetch) : M response :=
  match f with
  | Unreachable => raise RequestException
  | Responds resp => mret resp
  end.

(** The two tests that set [changed] and [reason], the same in the four
    scripts: [None] is [changed = False]. *)
Definition changed_reason (e : extraction) (l : loop) : option reason :=
  if truthy (activity_id e) && negb (py_eq (activity_id e) (last_id l))
  then Some NewActivityLive
  else if truthy (activity_id e) && accepting e
          && negb (py_eq (alerted_accepting_for_id (state l)) (activity_id e))
  then Some NowAccepting
  else None.

Definition alert_for (r : reason) (e : extraction) : alert :=
  {| why := r; about_id := activity_id e; about_title := title e |}.

(** The end of every iteration that did not raise:
    [state["etag"] = etag; state["last_modified"] = last_modified;
     save_state(state)]. *)
Definition store_tokens : M unit :=
  l ← get;
  set_state (with_state_etag (etag l));;
  set_state (with_state_last_modified (last_modified l));;
  save_state.

(** [etag = resp.headers.get("ETag") or etag] and its twin. *)
Definition refresh_tokens (resp : response) : M unit :=
  l ← get;
  set_etag (py_or (hdr_etag resp) (etag l));;
  set_last_modified (py_or (hdr_last_modified resp) (last_modified l)).

(** [try: body except Exception as e: logging.error(...)]: the exception is
    logged and the loop goes on with the variables as they are. *)
Definition try_except (body : M unit) (l : loop) : loop * list event :=
  match body l with
  | (_, l', evs) => (l', evs)
  end.

(** The variables of [main] before the first iteration. *)
Definition init (st : watch_state) : loop :=
  {| last_id := last_seen_id st; etag := state_etag st;
     last_modified := state_last_modified st; state := st |}.

(** The state of a first run: [load_state()] returned the empty dict. *)
Definition empty_state : watch_state :=
  {| last_seen_id := None; state_etag := None; state_last_modified := None;
     alerted_accepting_for_id := None |}.

(** A sender that raises [RuntimeError] when the gateway refuses the
    message; [delivered] tells what the gateway does with this call. *)
Definition send (delivered : bool) (a : alert) : M unit :=
  if delivered then emit (Sent a) else raise RuntimeError.

(** ** [pollwatch_telegram.py] *)

Module Telegram.

Definition ID_PATTERNS : list regex :=
  [ pat_all_submissions;
    Lit "action=" ∙ Q ∙ Lit "/a/questions/" ∙ Grp (Plus CDigit)
      ∙ Lit "/responses" ∙ Q;
    pat_data_activity_id;
    pat_activity_id_field;
    pat_activityId_json ].

Definition ACCEPTING_HINTS : regex := ACCEPTING_HINTS_long.

Definition extract_activity (html : string) : result extraction :=
  let* waiting := re_search WAITING_HINT (PyStr html) in
  if is_some waiting then Ok inactive
  else
    let* activity_id := first_id ID_PATTERNS (PyStr html) in
    let* m_h1 := re_search (pat_heading "h1") (PyStr html) in
    let* m_title :=
      (if is_some m_h1 then Ok m_h1
       else re_search (pat_heading "h2") (PyStr html)) in
    let title := title_of m_title in
    let* hint := re_search ACCEPTING_HINTS (PyStr html) in
    Ok {| activity_id := activity_id; accepting := is_some hint;
          title := title |}.

(** [send_telegram(body, token=..., chat_id=...)] *)
Definition send_telegram : bool -> alert -> M unit := send.

(** From the tests on [activity_id] to the end of the [elif resp.ok]
    branch: the alert and the update of the state. *)
Definition transition (delivered : bool) (e : extraction) : M unit :=
  l ← get;
  match changed_reason e l with
  | Some reason =>
      send_telegram delivered (alert_for reason e);;
      (if truthy (activity_id e) then
         set_last_id (activity_id e);;
         set_state (with_last_seen_id (activity_id e))
       else
         set_last_id None;;
         set_state (with_last_seen_id None));;
      (if truthy (activity_id e) && accepting e
       then set_state (with_alerted (activity_id e))
       else pass)
  | None =>
      if negb (truthy (activity_id e)) then
        (if is_some (last_id l) then
           set_last_id None;;
           set_state (with_last_seen_id None)
         else pass)
      else pass
  end.

(** The body of [while not stop: try: ...], up to the [except]. *)
Definition body (delivered : bool) (f : fetch) : M unit :=
  resp ← sess_get f;
  (if (status_code resp =? 304)%Z then pass
   else if ok resp then
     refresh_tokens resp;;
     e ← lift (extract_activity (text resp));
     transition delivered e
   else pass);;
  store_tokens.

Definition tick (delivered : bool) (f : fetch) : loop -> loop * list event :=
  try_except (body delivered f).

End Telegram.

(** ** [pollwatch_phone.py] *)

Module Phone.

Definition ID_PATTERNS : list regex :=
  [ pat_response_root;
    pat_all_submissions;
    Lit "action=" ∙ Q ∙ Lit "/a/questions/" ∙ Grp (Plus CDigit)
      ∙ Lit "/responses";
    Lit "src=" ∙ Q ∙ Lit "/multiple_choice_polls/"
      ∙ Grp (Plus (CNot [dq; "/"%char])) ∙ Lit "/respond";
    Lit "src=" ∙ Q ∙ Lit "/text_polls/"
      ∙ Grp (Plus (CNot [dq; "/"%char])) ∙ Lit "/respond";
    pat_data_activity_id;
    pat_activity_id_field;
    pat_activityId_json ].

Definition ACCEPTING_HINTS : regex := ACCEPTING_HINTS_long.

(** [<turbo-frame[^>]+src=Q[^Q]+/respond], with Q the double quote *)
Definition pat_respond_frame : regex :=
  Lit "<turbo-frame" ∙ Plus (CNot [gt]) ∙ Lit "src=" ∙ Q
  ∙ Plus (CNot [dq]) ∙ Lit "/respond".

(** [(action=Q/a/questions/\d+/responses|data-input--choice|data-response-to)] *)
Definition pat_response_forms : regex :=
  Grp ((Lit "action=" ∙ Q ∙ Lit "/a/questions/" ∙ Plus CDigit
        ∙ Lit "/responses")
       ∥ Lit "data-input--choice" ∥ Lit "data-response-to").

Definition extract_activity (html : string) : result extraction :=
  let* m_respond := re_search pat_respond_frame (PyStr html) in
  let respond_present := is_some m_respond in
  let* activity_id := first_id ID_PATTERNS (PyStr html) in
  let* waiting := re_search WAITING_HINT (PyStr html) in
  if negb (truthy activity_id) && is_some waiting && negb respond_present
  then Ok inactive
  else
    let* m_h1 := re_search (pat_heading "h1") (PyStr html) in
    let* m_h2 :=
      (if is_some m_h1 then Ok m_h1
       else re_search (pat_heading "h2") (PyStr html)) in
    let* m_title :=
      (if is_some m_h2 then Ok m_h2
       else re_search pat_any_heading (PyStr html)) in
    let title := title_of m_title in
    let* hint := re_search ACCEPTING_HINTS (PyStr html) in
    let accepting := is_some hint in
    let* accepting :=
      (if negb accepting then
         let* forms := re_search pat_response_forms (PyStr html) in
         Ok (is_some forms)
       else Ok accepting) in
    let accepting :=
      if negb accepting && respond_present then true else accepting in
    Ok {| activity_id := activity_id; accepting := accepting;
          title := title |}.

(** [for phone_num in phone_numbers:] the calls of [make_phone_call] are
    placed from one thread per number, and each thread catches the exception
    of its own call: the dispatch of an alert never raises in the loop. *)
Definition call_all (a : alert) : M unit := emit (Sent a).

Definition transition (e : extraction) : M unit :=
  l ← get;
  match changed_reason e l with
  | Some reason =>
      call_all (alert_for reason e);;
      (if truthy (activity_id e) then
         set_last_id (activity_id e);;
         set_state (with_last_seen_id (activity_id e))
       else
         set_last_id None;;
         set_state (with_last_seen_id None);;
         set_state (with_alerted None));;
      (if truthy (activity_id e) && accepting e
       then set_state (with_alerted (activity_id e))
       else pass)
  | None =>
      if truthy (activity_id e) && negb (accepting e) then
        (if py_eq (alerted_accepting_for_id (state l)) (activity_id e)
         then set_state (with_alerted None)
         else pass)
      else if negb (truthy (activity_id e)) then
        (if is_some (last_id l) then
           set_last_id None;;
           set_state (with_last_seen_id None);;
           set_state (with_alerted None)
         else pass)
      else pass
  end.

Definition body (f : fetch) : M unit :=
  resp ← sess_get f;
  (if (status_code resp =? 304)%Z then pass
   else if ok resp then
     refresh_tokens resp;;
     e ← lift (extract_activity (text resp));
     transition e
   else pass);;
  store_tokens.

Definition tick (f : fetch) : loop -> loop * list event :=
  try_except (body f).

End Phone.

(** ** [pollwatch_sms.py] *)

Module Sms.

Definition ID_PATTERNS : list regex :=
  [ pat_data_activity_id; pat_activity_id_field; pat_activityId_json ].

(** [(accepting responses|respond|submit|send response|vote now)] *)
Definition ACCEPTING_HINTS : regex :=
  Grp (Lit "accepting responses" ∥ Lit "respond" ∥ Lit "submit"
       ∥ Lit "send response" ∥ Lit "vote now").

(** [data-(?:title|question)[=Q'][^Q']{5,200}[Q']], the run being group 1 *)
Definition pat_data_title : regex :=
  Lit "data-" ∙ (Lit "title" ∥ Lit "question")
  ∙ One (COneOf ["="%char; dq; sq])
  ∙ Grp (Rep (CNot [dq; sq]) 5 (Some 200)) ∙ One (COneOf [dq; sq]).

(** The three title searches are written [re.search(pattern, re.I)]: the
    flag stands where the subject belongs, and [html] is not passed. *)
Definition extract_activity (html : string) : result extraction :=
  let* activity_id := first_id ID_PATTERNS (PyStr html) in
  let* m_data := re_search pat_data_title re_I in
  let* m_title :=
    (if is_some m_data then Ok m_data
     else
       let* m_h1 := re_search (pat_heading "h1") re_I in
       if is_some m_h1 then Ok m_h1
       else re_search (pat_heading "h2") re_I) in
  let title := title_of m_title in
  let* hint := re_search ACCEPTING_HINTS (PyStr html) in
  Ok {| activity_id := activity_id; accepting := is_some hint;
        title := title |}.

(** [send_sms(body, client=..., from_number=..., to_number=...)] *)
Definition send_sms : bool -> alert -> M unit := send.

Definition transition (delivered : bool) (e : extraction) : M unit :=
  l ← get;
  match changed_reason e l with
  | Some reason =>
      send_sms delivered (alert_for reason e);;
      set_last_id (py_or (activity_id e) (last_id l));;
      set_state (with_last_seen_id (py_or (activity_id e) (last_id l)));;
      (if truthy (activity_id e) && accepting e
       then set_state (with_alerted (activity_id e))
       else pass)
  | None => pass
  end.

Definition body (delivered : bool) (f : fetch) : M unit :=
  resp ← sess_get f;
  (if (status_code resp =? 304)%Z then pass
   else if ok resp then
     refresh_tokens resp;;
     e ← lift (extract_activity (text resp));
     transition delivered e
   else pass);;
  store_tokens.

Definition tick (delivered : bool) (f : fetch) : loop -> loop * list event :=
  try_except (body delivered f).

End Sms.

(** The alerts among the events of a tick. *)
Definition alerts (evs : list event) : list alert :=
  omap (fun ev => match ev with Sent a => Some a | Saved _ => None end) evs.

Definition page (html : string) : fetch :=
  Responds {| status_code := 200; hdr_etag := None;
              hdr_last_modified := None; text := html |}.

(** ** Runs *)

(** A loop fed with the successive inputs of its ticks; the events of the
    ticks are concatenated. *)
Fixpoint run_loop {I : Type} (tick : I -> loop -> loop * list event)
    (inputs : list I) (l : loop) : loop * list event :=
  match inputs with
  | [] => (l, [])
  | i :: rest =>
      let '(l1, ev1) := tick i l in
      let '(l2, ev2) := run_loop tick rest l1 in
      (l2, ev1 ++ ev2)
  end.

(** The transition of a script on an extraction result, seen from the loop:
    an exception of the sender ends the iteration. *)
Definition phone_step (e : extraction) : loop -> loop * list event :=
  try_except (Phone.transition e).

Definition telegram_step (i : bool * extraction) : loop -> loop * list event :=
  try_except (Telegram.transition (fst i) (snd i)).

Definition sms_step (i : bool * extraction) : loop -> loop * list event :=
  try_except (Sms.transition (fst i) (snd i)).

Definition telegram_tick (i : bool * fetch) : loop -> loop * list event :=
  Telegram.tick (fst i) (snd i).

Definition sms_tick (i : bool * fetch) : loop -> loop * list event :=
  Sms.tick (fst i) (snd i).

(** The tokens of the loop and of the dictionary agree. *)
Definition tokens_stored (l : loop) : Prop :=
  state_etag (state l) = etag l
  /\ state_last_modified (state l) = last_modified l.




(** The loop after [state["etag"] = etag; state["last_modified"] =
    last_modified]. *)
Definition tokens_written (l : loop) : loop :=
  {| last_id := last_id l; etag := etag l; last_modified := last_modified l;
     state := with_state_last_modified (last_modified l)
                (with_state_etag (etag l) (state l)) |}.

(** The loop after [etag = resp.headers.get("ETag") or etag] and its
    twin. *)
Definition refreshed (resp : response) (l : loop) : loop :=
  {| last_id := last_id l; etag := py_or (hdr_etag resp) (etag l);
     last_modified := py_or (hdr_last_modified resp) (last_modified l);
     state := state l |}.

(** The end of an iteration, from the outcome of its transition: the tokens
    are stored and the state saved unless an exception was raised. *)
Definition finish (out : result unit * loop * list event)
  : loop * list event :=
  match out with
  | (Ok _, l, evs) =>
      (tokens_written l, evs ++ [Saved (state (tokens_written l))])
  | (Raise _, l, evs) => (l, evs)
  end.

(** ** Extraction in closed form *)

(** [bool(pattern.search(html))] *)
Definition shows (r : regex) (html : string) : bool :=
  is_some (search_str r html).

(** The id that the loop over [ID_PATTERNS] finds in a string. *)
Fixpoint find_id (pats : list regex) (html : string) : option string :=
  match pats with
  | [] => None
  | pat :: rest =>
      match search_str pat html with
      | Some mo => group1 mo
      | None => find_id rest html
      end
  end.

(** The first of the given heading patterns that matches gives the title. *)
Fixpoint find_title (pats : list regex) (html : string) : option string :=
  match pats with
  | [] => None
  | pat :: rest =>
      match search_str pat html with
      | Some mo => title_of (Some mo)
      | None => find_title rest html
      end
  end.

(** The text [w] occurs in [html], up to case. *)
Definition contains_ci (w html : string) : Prop :=
  exists pre mid post,
    list_ascii_of_string html = pre ++ mid ++ post
    /\ map lower mid = map lower (list_ascii_of_string w).

(** ** The state file *)

(** A value of [json.load]. *)
#[local] Unset Elimination Schemes.
Inductive json : Type :=
| JNull
| JBool (b : bool)
| JNumber (lexeme : string)
| JString (s : string)
| JArray (items : list json)
| JObject (members : list (string * json)).    (* a [dict] *)
#[local] Set Elimination Schemes.

(** [poll_state.json] as [load_state] meets it. *)
Inductive state_file : Type :=
| Absent                  (* [os.path.exists(STATE_FILE)] is false *)
| Unloadable (e : exn)    (* [open] or [json.load] raises [e] *)
| Holds (v : json).       (* [json.load] returns [v] *)

Definition path_exists (f : state_file) : bool :=
  match f with Absent => false | _ => true end.

(** [with open(STATE_FILE, ...) as f: json.load(f)] *)
Definition json_load (f : state_file) : result json :=
  match f with
  | Absent => Raise OSError
  | Unloadable e => Raise e
  | Holds v => Ok v
  end.

(** [{}] *)
Definition empty_dict : json := JObject [].

Definition is_dict (v : json) : bool :=
  match v with JObject _ => true | _ => false end.

(** [load_state] of the three [pollwatch_*.py] scripts:
    [try: return json.load(f) except Exception: return {}] under
    [if os.path.exists(STATE_FILE):], and [return {}] after it. *)
Definition load_state (f : state_file) : result json :=
  if path_exists f then
    match json_load f with
    | Ok v => Ok v
    | Raise _ => Ok empty_dict
    end
  else Ok empty_dict.

(** [state.get(key)]: a method of [dict], looked up in its items. *)
Definition dict_get (state : json) (key : string) : result json :=
  match state with
  | JObject members =>
      Ok (match find (fun kv => String.eqb (fst kv) key) members with
          | Some kv => snd kv
          | None => JNull
          end)
  | _ => Raise AttributeError
  end.

(** The first statements of [main] that use the state: they are outside the
    [try] of the loop. *)
Definition startup (f : state_file) : result (json * json * json * json) :=
  let* state := load_state f in
  let* last_id := dict_get state "last_seen_id" in
  let* etag := dict_get state "etag" in
  let* last_modified := dict_get state "last_modified" in
  Ok (state, last_id, etag, last_modified).

(** ** [web_app.py]: the registry of monitors *)

Module Web.

(** [load_state] of the web application: [except: pass], then
    [return {}]. *)
Definition load_state (f : state_file) : result json :=
  let attempt :=
    if path_exists f then
      match json_load f with
      | Ok v => Some v
      | Raise _ => None
      end
    else None in
  match attempt with
  | Some v => Ok v
  | None => Ok empty_dict
  end.

(** *** [hashlib.md5] *)

Definition mask32 (x : Z) : Z := Z.land x 4294967295.

Definition rotl32 (x c : Z) : Z :=
  mask32 (Z.lor (Z.shiftl x c) (Z.shiftr (mask32 x) (32 - c))).

Definition not32 (x : Z) : Z := Z.lxor (mask32 x) 4294967295.

Definition md5_shifts : list Z :=
  [ 7; 12; 17; 22; 7; 12; 17; 22; 7; 12; 17; 22; 7; 12; 17; 22;
    5; 9; 14; 20; 5; 9; 14; 20; 5; 9; 14; 20; 5; 9; 14; 20;
    4; 11; 16; 23; 4; 11; 16; 23; 4; 11; 16; 23; 4; 11; 16; 23;
    6; 10; 15; 21; 6; 10; 15; 21; 6; 10; 15; 21; 6; 10; 15; 21 ]%Z.

Definition md5_K : list Z :=
  [ 0xd76aa478; 0xe8c7b756; 0x242070db; 0xc1bdceee;
    0xf57c0faf; 0x4787c62a; 0xa8304613; 0xfd469501;
    0x698098d8; 0x8b44f7af; 0xffff5bb1; 0x895cd7be;
    0x6b901122; 0xfd987193; 0xa679438e; 0x49b40821;
    0xf61e2562; 0xc040b340; 0x265e5a51; 0xe9b6c7aa;
    0xd62f105d; 0x02441453; 0xd8a1e681; 0xe7d3fbc8;
    0x21e1cde6; 0xc33707d6; 0xf4d50d87; 0x455a14ed;
    0xa9e3e905; 0xfcefa3f8; 0x676f02d9; 0x8d2a4c8a;
    0xfffa3942; 0x8771f681; 0x6d9d6122; 0xfde5380c;
    0xa4beea44; 0x4bdecfa9; 0xf6bb4b60; 0xbebfbc70;
    0x289b7ec6; 0xeaa127fa; 0xd4ef3085; 0x04881d05;
    0xd9d4d039; 0xe6db99e5; 0x1fa27cf8; 0xc4ac5665;
    0xf4292244; 0x432aff97; 0xab9423a7; 0xfc93a039;
    0x655b59c3; 0x8f0ccc92; 0xffeff47d; 0x85845dd1;
    0x6fa87e4f; 0xfe2ce6e0; 0xa3014314; 0x4e0811a1;
    0xf7537e82; 0xbd3af235; 0x2ad7d2bb; 0xeb86d391 ]%Z.

(** [k] bytes of [x], least significant first. *)
Fixpoint le_bytes (k : nat) (x : Z) : list Z :=
  match k with
  | O => []
  | S k' => Z.land x 255 :: le_bytes k' (Z.shiftr x 8)
  end.

(** The message, a bit 1, zeros up to 56 modulo 64, and the length in bits
    on 8 bytes. *)
Definition md5_pad (msg : list Z) : list Z :=
  let n := length msg in
  let zeros := ((64 + 55 - n mod 64) mod 64)%nat in
  msg ++ [128%Z] ++ repeat 0%Z zeros ++ le_bytes 8 (8 * Z.of_nat n).

Fixpoint le_word (bs : list Z) : Z :=
  match bs with
  | [] => 0
  | b :: rest => (b + 256 * le_word rest)%Z
  end.

(** The words of a block of 64 bytes. *)
Fixpoint words (k : nat) (bs : list Z) : list Z :=
  match k with
  | O => []
  | S k' => le_word (take 4 bs) :: words k' (drop 4 bs)
  end.

Definition md5_state : Type := Z * Z * Z * Z.

Definition md5_round (M : list Z) (i : nat) (st : md5_state) : md5_state :=
  let '(A, B, C, D) := st in
  let '(F, g) :=
    if (i <? 16)%nat then
      (Z.lor (Z.land B C) (Z.land (not32 B) D), i)
    else if (i <? 32)%nat then
      (Z.lor (Z.land D B) (Z.land (not32 D) C), ((5 * i + 1) mod 16)%nat)
    else if (i <? 48)%nat then
      (Z.lxor B (Z.lxor C D), ((3 * i + 5) mod 16)%nat)
    else
      (Z.lxor C (Z.lor B (not32 D)), ((7 * i) mod 16)%nat) in
  let F := mask32 (F + A + nth i md5_K 0%Z + nth g M 0%Z) in
  (D, mask32 (B + rotl32 F (nth i md5_shifts 0%Z)), B, C).

Definition md5_block (st : md5_state) (block : list Z) : md5_state :=
  let M := words 16 block in
  let '(a0, b0, c0, d0) := st in
  let '(A, B, C, D) :=
    fold_left (fun s i => md5_round M i s) (seq 0 64) st in
  (mask32 (a0 + A), mask32 (b0 + B), mask32 (c0 + C), mask32 (d0 + D)).

Fixpoint md5_blocks (k : nat) (st : md5_state) (bs : list Z) : md5_state :=
  match k with
  | O => st
  | S k' => md5_blocks k' (md5_block st (take 64 bs)) (drop 64 bs)
  end.

Definition md5 (msg : list Z) : list Z :=
  let padded := md5_pad msg in
  let '(a, b, c, d) :=
    md5_blocks (length padded / 64)
      (0x67452301, 0xefcdab89, 0x98badcfe, 0x10325476)%Z padded in
  le_bytes 4 a ++ le_bytes 4 b ++ le_bytes 4 c ++ le_bytes 4 d.

Definition hex_digit (n : Z) : ascii :=
  if (n <? 10)%Z then ascii_of_nat (48 + Z.to_nat n)
  else ascii_of_nat (87 + Z.to_nat n).

Fixpoint hex (bs : list Z) : string :=
  match bs with
  | [] => EmptyString
  | b :: rest =>
      String (hex_digit (b / 16)) (String (hex_digit (b mod 16)) (hex rest))
  end.

(** [str.encode()]: UTF-8, for code points below 256. *)
Fixpoint encode (s : string) : list Z :=
  match s with
  | EmptyString => []
  | String c rest =>
      let n := Z.of_nat (nat_of_ascii c) in
      if (n <? 128)%Z then n :: encode rest
      else (192 + n / 64)%Z :: (128 + n mod 64)%Z :: encode rest
  end.

(** [hashlib.md5(data).hexdigest()] *)
Definition md5_hexdigest (data : list Z) : string := hex (md5 data).

(** *** The monitors *)

(** An entry of [active_monitors]. *)
Record monitor : Type := {
  poll_url : string;
  phone_number : string;
  status : string;              (* starting, running or error *)
  started_at : Z;               (* a reading of [time.time()] *)
  error : option string
}.

(** The JSON body of a request to [/api/monitors/start]; [None] is a key
    that the body lacks. *)
Record start_request : Type := {
  pollUrl : option string;
  phoneNumber : option string
}.

(** The answer of the route: the JSON body and the HTTP status. *)
Inductive reply : Type :=
| Success (monitor_id : option string)        (* status 200 *)
| Failure (message : string) (http : Z).

(** [threading.Thread(target=monitor_poll, args=(...))], started. *)
Record thread : Type := {
  thread_poll_url : string;
  thread_phone_number : string;
  thread_monitor_id : string
}.

(** [hashlib.md5(f"{poll_url}{phone_number}".encode()).hexdigest()[:12]] *)
Definition make_monitor_id (poll_url phone_number : string) : string :=
  substring 0 12 (md5_hexdigest (encode (poll_url ++ phone_number))).

Definition is_empty (s : string) : bool := String.eqb s EmptyString.

Definition already_exists : string :=
  "Monitor already exists for this URL and phone number".

(** [monitor_id in active_monitors] and the status of the entry is
    running. *)
Definition is_running (monitor_id : string)
    (active_monitors : gmap string monitor) : bool :=
  match active_monitors !! monitor_id with
  | Some existing => String.eqb (status existing) "running"
  | None => false
  end.

(** The route [/api/monitors/start]; [now] is the reading of the clock.
    It returns the answer, the registry and the thread it started. *)
Definition start_monitor (now : Z) (data : start_request)
    (active_monitors : gmap string monitor)
  : reply * gmap string monitor * option thread :=
  let poll_url := strip (default EmptyString (pollUrl data)) in
  let phone_number := strip (default EmptyString (phoneNumber data)) in
  if is_empty poll_url || is_empty phone_number then
    (Failure "Poll URL and phone number are required" 400,
     active_monitors, None)
  else if negb (String.prefix "http" poll_url) then
    (Failure "Invalid poll URL" 400, active_monitors, None)
  else
    let monitor_id := make_monitor_id poll_url phone_number in
    if is_running monitor_id active_monitors
    then (Failure already_exists 400, active_monitors, None)
    else
      (Success (Some monitor_id),
       <[monitor_id := {| poll_url := poll_url;
                          phone_number := phone_number;
                          status := "starting"; started_at := now;
                          error := None |}]> active_monitors,
       Some {| thread_poll_url := poll_url;
               thread_phone_number := phone_number;
               thread_monitor_id := monitor_id |}).

Definition with_status (s : string) (e : option string) (m : monitor)
  : monitor :=
  {| poll_url := poll_url m; phone_number := phone_number m; status := s;
     started_at := started_at m; error := e |}.

(** [monitor_poll] up to its loop: without the Twilio settings the entry
    gets the status error and the thread returns, otherwise the status
    running.  [active_monitors[monitor_id]] raises when the monitor was
    stopped in between. *)
Definition monitor_poll_start (configured : bool) (t : thread)
    (active_monitors : gmap string monitor)
  : result (gmap string monitor) :=
  match active_monitors !! thread_monitor_id t with
  | None => Raise KeyError
  | Some m =>
      if negb configured then
        Ok (<[thread_monitor_id t :=
                with_status "error"
                  (Some "Missing Twilio credentials in .env file") m]>
              active_monitors)
      else
        Ok (<[thread_monitor_id t := with_status "running" (error m) m]>
              active_monitors)
  end.

(** The route [/api/monitors/<monitor_id>/stop]. *)
Definition stop_monitor (monitor_id : string)
    (active_monitors : gmap string monitor)
  : reply * gmap string monitor :=
  match active_monitors !! monitor_id with
  | None => (Failure "Monitor not found" 404, active_monitors)
  | Some _ => (Success None, delete monitor_id active_monitors)
  end.

End Web.

(** ** [web_app.py]: the watch loop of a monitor *)

Module Monitor.

Definition ID_PATTERNS : list regex :=
  [ pat_response_root;
    pat_all_submissions;
    Lit "action=" ∙ Q ∙ Lit "/a/questions/" ∙ Grp (Plus CDigit)
      ∙ Lit "/responses";
    pat_data_activity_id;
    pat_activity_id_field;
    pat_activityId_json ].

Definition ACCEPTING_HINTS : regex := ACCEPTING_HINTS_long.

(** [(action=Q/a/questions/\d+/responses|data-input--choice|data-response-to)] *)
Definition pat_response_forms : regex :=
  Grp ((Lit "action=" ∙ Q ∙ Lit "/a/questions/" ∙ Plus CDigit
        ∙ Lit "/responses")
       ∥ Lit "data-input--choice" ∥ Lit "data-response-to").

Definition extract_activity (html : string) : result extraction :=
  let* waiting := re_search WAITING_HINT (PyStr html) in
  if is_some waiting then Ok inactive
  else
    let* activity_id := first_id ID_PATTERNS (PyStr html) in
    let* m_h1 := re_search (pat_heading "h1") (PyStr html) in
    let* m_h2 :=
      (if is_some m_h1 then Ok m_h1
       else re_search (pat_heading "h2") (PyStr html)) in
    let* m_title :=
      (if is_some m_h2 then Ok m_h2
       else re_search pat_any_heading (PyStr html)) in
    let title := title_of m_title in
    let* hint := re_search ACCEPTING_HINTS (PyStr html) in
    let accepting := is_some hint in
    let* accepting :=
      (if negb accepting then
         let* forms := re_search pat_response_forms (PyStr html) in
         Ok (is_some forms)
       else Ok accepting) in
    Ok {| activity_id := activity_id; accepting := accepting;
          title := title |}.

(** [make_phone_call] of the web application catches the exception of the
    call and prints it: it never raises. *)
Definition make_phone_call (a : alert) : M unit := emit (Sent a).

(** The variable [monitor_state] is the [state] of the loop here. *)
Definition transition (e : extraction) : M unit :=
  l ← get;
  match changed_reason e l with
  | Some reason =>
      make_phone_call (alert_for reason e);;
      (if truthy (activity_id e) then
         set_last_id (activity_id e);;
         set_state (with_last_seen_id (activity_id e))
       else
         set_last_id None;;
         set_state (with_last_seen_id None);;
         set_state (with_alerted None));;
      (if truthy (activity_id e) && accepting e
       then set_state (with_alerted (activity_id e))
       else pass)
  | None =>
      if negb (truthy (activity_id e)) then
        (if is_some (last_id l) then
           set_last_id None;;
           set_state (with_last_seen_id None);;
           set_state (with_alerted None)
         else pass)
      else pass
  end.

(** One iteration of the loop of [monitor_poll], up to its [except].  The
    tokens are stored and the state saved inside the [elif resp.ok] branch
    only.  The write of [last_check] and [last_activity] into the entry of
    the registry is [last_activity_written] below. *)
Definition body (f : fetch) : M unit :=
  resp ← sess_get f;
  if (status_code resp =? 304)%Z then pass
  else if ok resp then
    refresh_tokens resp;;
    e ← lift (extract_activity (text resp));
    transition e;;
    store_tokens
  else pass.

Definition tick (f : fetch) : loop -> loop * list event :=
  try_except (body f).

(** [active_monitors[monitor_id]["last_activity"] = activity_id if activity_id
    else None], under [if monitor_id in active_monitors:]; the result is
    [None] when the iteration does not reach this write. *)
Definition last_activity_written (registered : bool) (f : fetch)
  : option (option string) :=
  match f with
  | Unreachable => None
  | Responds resp =>
      if (status_code resp =? 304)%Z then None
      else if ok resp then
        match extract_activity (text resp) with
        | Ok e =>
            if registered
            then Some (if truthy (activity_id e) then activity_id e else None)
            else None
        | Raise _ => None
        end
      else None
  end.

(** [state_key = f"monitor_{monitor_id}"] *)
Definition state_key (monitor_id : string) : string :=
  ("monitor_" ++ monitor_id)%string.

(** The start of [monitor_poll] on the content of the state file, a dict of
    the states of the monitors: [state = load_state()], an empty entry under
    [state_key] if there is none, [monitor_state = state[state_key]] and the
    three variables read from it.  The dict [state] of the thread is the
    second component with [monitor_state] under [state_key]. *)
Definition open_store (key : string) (file : gmap string watch_state)
  : loop * gmap string watch_state :=
  (init (default empty_state (file !! key)), delete key file).

(** What [save_state(state)] writes: the whole dict of the thread, with
    [monitor_state] under its key. *)
Definition written (key : string) (others : gmap string watch_state)
    (st : watch_state) : gmap string watch_state :=
  <[key := st]> others.

(** The state file after the events of a thread. *)
Fixpoint file_after (key : string) (others : gmap string watch_state)
    (evs : list event) (file : gmap string watch_state)
  : gmap string watch_state :=
  match evs with
  | [] => file
  | Saved st :: rest => file_after key others rest (written key others st)
  | Sent _ :: rest => file_after key others rest file
  end.

(** The end of [monitor_poll], after its loop:
    [if monitor_id in active_monitors: del active_monitors[monitor_id]]. *)
Definition monitor_poll_exit (monitor_id : string)
    (active_monitors : gmap string Web.monitor) : gmap string Web.monitor :=
  delete monitor_id active_monitors.

End Monitor.

(** The operations on the registry of the web application, in some
    interleaving of the routes and the threads. *)
Inductive registry_op : Type :=
| OpStart (now : Z) (data : Web.start_request)   (* the route start *)
| OpStop (monitor_id : string)                   (* the route stop *)
| OpThreadStart (configured : bool) (t : Web.thread)
                                                 (* a thread reaches its loop *)
| OpThreadExit (monitor_id : string).            (* a thread leaves its loop *)

Definition apply_op (o : registry_op)
    (active_monitors : gmap string Web.monitor) : gmap string Web.monitor :=
  match o with
  | OpStart now data => snd (fst (Web.start_monitor now data active_monitors))
  | OpStop monitor_id => snd (Web.stop_monitor monitor_id active_monitors)
  | OpThreadStart configured t =>
      match Web.monitor_poll_start configured t active_monitors with
      | Ok reg => reg
      | Raise _ => active_monitors
      end
  | OpThreadExit monitor_id => Monitor.monitor_poll_exit monitor_id active_monitors
  end.

(** A sequence of operations, applied in order. *)
Fixpoint apply_ops (ops : list registry_op)
    (active_monitors : gmap string Web.monitor) : gmap string Web.monitor :=
  match ops with
  | [] => active_monitors
  | o :: rest => apply_ops rest (apply_op o active_monitors)
  end.

(** Every entry is filed under the id of its own URL and phone number, and
    holds what [start_monitor] has checked. *)
Definition well_keyed (active_monitors : gmap string Web.monitor) : Prop :=
  forall id m, active_monitors !! id = Some m ->
    id = Web.make_monitor_id (Web.poll_url m) (Web.phone_number m)
    /\ String.prefix "http" (Web.poll_url m) = true
    /\ Web.phone_number m <> EmptyString
    /\ (Web.status m = "starting" \/ Web.status m = "running"
        \/ Web.status m = "error").

(** ** [pollwatch_phone.py]: the settings read at startup *)

(** [str.split(sep)] for a separator of one character. *)
Fixpoint split_on (sep : ascii) (s : list ascii) : list (list ascii) :=
  match s with
  | [] => [[]]
  | c :: rest =>
      if Ascii.eqb c sep then [] :: split_on sep rest
      else
        match split_on sep rest with
        | piece :: pieces => (c :: piece) :: pieces
        | [] => [[c]]
        end
  end.

(** [[num.strip() for num in twilio_to_number.split(',')]] under
    [if twilio_to_number:], and [[]] otherwise. *)
Definition phone_numbers (twilio_to_number : option string) : list string :=
  match twilio_to_number with
  | Some s =>
      if truthy twilio_to_number then
        map (fun piece => string_of_list_ascii (strip_list piece))
            (split_on ","%char (list_ascii_of_string s))
      else []
  | None => []
  end.

(** The test that ends [main] with [SystemExit]:
    [not all([url, sid, token, from_number]) or not phone_numbers]. *)
Definition settings_missing (url sid token from_number to_number : option string)
  : bool :=
  negb (forallb truthy [url; sid; token; from_number])
  || match phone_numbers to_number with [] => true | _ => false end.

(** ** Inputs of the examples *)

Definition seen (a : string) (acc : bool) (t : option string) : extraction :=
  {| activity_id := Some a; accepting := acc; title := t |}.

Definition watching (a : string) : loop :=
  init {| last_seen_id := Some a; state_etag := None;
          state_last_modified := None; alerted_accepting_for_id := None |}.

Definition alerted_on (a : string) : loop :=
  init {| last_seen_id := Some a; state_etag := None;
          state_last_modified := None; alerted_accepting_for_id := Some a |}.

Definition page_open : fetch :=
  page ("<div data-activity-id=" ++ qstr "7" ++ ">You may respond</div>").
Definition page_locked : fetch :=
  page ("<div data-activity-id=" ++ qstr "7" ++ ">Locked</div>").
Definition page_idle : fetch := page "<p>Nothing here yet</p>".

(** A page with the waiting text and an activity id attribute, and with no
    frame or form to respond: the phone extraction does not return the
    empty result. *)
Definition page_waiting_with_id : string :=
  "<div data-activity-id=" ++ qstr "7" ++ ">Waiting for the presenter</div>".

(** A form to respond next to the waiting text: the Telegram extraction
    returns the empty result all the same, the phone extraction does not. *)
Definition page_waiting_with_form : string :=
  "<form action=" ++ qstr "/a/questions/12/responses"
  ++ ">Waiting room</form>".

(** A page that shows the activity [a] and the text [body]. *)
Definition page_activity (a body : string) : fetch :=
  page ("<div data-activity-id=" ++ qstr a ++ ">" ++ body ++ "</div>").

Definition sample_request : Web.start_request :=
  {| Web.pollUrl := Some " https://pe.app/krishavsingla ";
     Web.phoneNumber := Some "+15551234567" |}.

(** Answers of the server, and the markup of the pages above. *)
Definition answer (html : string) : response :=
  {| status_code := 200; hdr_etag := None; hdr_last_modified := None;
     text := html |}.

Definition answer_tagged (tag html : string) : response :=
  {| status_code := 200; hdr_etag := Some tag; hdr_last_modified := None;
     text := html |}.

Definition answer_status (code : Z) : response :=
  {| status_code := code; hdr_etag := None; hdr_last_modified := None;
     text := EmptyString |}.

Definition html_open : string :=
  "<div data-activity-id=" ++ qstr "7" ++ ">You may respond</div>".
Definition html_locked : string :=
  "<div data-activity-id=" ++ qstr "7" ++ ">Locked</div>".
Definition html_idle : string := "<p>Nothing here yet</p>".

(** A page with a frame to respond, and one with a heading. *)
Definition html_frame : string :=
  "<turbo-frame id=" ++ qstr "poll" ++ " src="
  ++ qstr "/multiple_choice_polls/abc/respond" ++ "></turbo-frame>".

Definition html_heading : string := "<h1>  Quiz   of the day </h1>".

(** The registry with the monitor of [sample_request] running. *)
Definition running_sample : gmap string Web.monitor :=
  {[ "c01c45674e58" :=
       {| Web.poll_url := "https://pe.app/krishavsingla";
          Web.phone_number := "+15551234567"; Web.status := "running";
          Web.started_at := 0; Web.error := None |} ]}.

(** The state of another monitor in the state file. *)
Definition state_of_b : watch_state :=
  {| last_seen_id := Some "3"; state_etag := None;
     state_last_modified := None; alerted_accepting_for_id := None |}.

(** Two requests with the same concatenation of URL and phone number. *)
Definition request_a1 : Web.start_request :=
  {| Web.pollUrl := Some "http://pe.app/a1"; Web.phoneNumber := Some "23" |}.
Definition request_a : Web.start_request :=
  {| Web.pollUrl := Some "http://pe.app/a"; Web.phoneNumber := Some "123" |}.

(** * Properties *)

(** ** Python values *)

Lemma py_eq_true a b : py_eq a b = true <-> a = b.
Proof.
  destruct a as [x|], b as [y|]; simpl; try (split; congruence).
  rewrite String.eqb_eq. split; congruence.
Qed.

Lemma py_eq_false a b : py_eq a b = false <-> a <> b.
Proof.
  rewrite <- py_eq_true. destruct (py_eq a b); split; congruence.
Qed.

Lemma py_eq_refl a : py_eq a a = true.
Proof. by apply py_eq_true. Qed.

Lemma truthy_Some s : truthy (Some s) = true <-> s <> EmptyString.
Proof.
  unfold truthy. destruct (String.eqb_spec s EmptyString); simpl;
    split; congruence.
Qed.

(** ** The models on examples *)

Example search_demo :
  search_str (Lit "id=" ∙ Q ∙ Lit "q_" ∙ Grp (Plus CDigit) ∙ Q)
             ("<div ID=" ++ qstr "q_42" ++ ">")
  = Some {| group1 := Some "42" |}.
Proof. reflexivity. Qed.

Example phone_demo :
  Phone.extract_activity
    ("<h1>Pick one now</h1><div id=" ++ qstr "all_submissions_question_42"
       ++ ">accepting responses</div>")
  = Ok {| activity_id := Some "42"; accepting := true;
          title := Some "Pick one now" |}.
Proof. vm_compute. reflexivity. Qed.

Example phone_tick_demo :
  let html := ("<div id=" ++ qstr "all_submissions_question_42"
                 ++ ">accepting responses</div>")%string in
  let '(l, evs) := Phone.tick (page html) (init empty_state) in
  last_id l = Some "42"
  /\ alerted_accepting_for_id (state l) = Some "42"
  /\ map why (alerts evs) = [NewActivityLive].
Proof. vm_compute. auto. Qed.

Example md5_of_abc :
  Web.md5_hexdigest (Web.encode "abc") = "900150983cd24fb0d6963f7d28e17f72".
Proof. vm_compute. reflexivity. Qed.

Example md5_of_nothing :
  Web.md5_hexdigest [] = "d41d8cd98f00b204e9800998ecf8427e".
Proof. vm_compute. reflexivity. Qed.

Example md5_of_two_blocks :
  Web.md5_hexdigest
    (Web.encode (string_of_list_ascii
                   (repeat "a"%char 130 ++ [ascii_of_nat 233])))
  = "0f90c07469c17fd34bbdc3c885f79dc4".
Proof. vm_compute. reflexivity. Qed.

(** ** Capturing groups are not empty *)

Lemma match_lit_length l s s' :
  match_lit l s = Some s' -> length s' + String.length l = length s.
Proof.
  revert s. induction l as [|a l IH]; intros s; cbn.
  - intros [= ->]. lia.
  - destruct s as [|c s]; [discriminate|].
    destruct (Ascii.eqb _ _); [|discriminate].
    intros H. apply IH in H. cbn. lia.
Qed.

Lemma rep_inv {A} p lo hi s (k : list ascii -> option A) x :
  rep p lo hi s k = Some x ->
  exists s', k s' = Some x /\ length s' + lo <= length s.
Proof.
  revert lo hi. induction s as [|c s IH]; intros lo hi; cbn.
  - destruct (Nat.eqb_spec lo 0); [|discriminate].
    intros H. exists []. split; [done | cbn; lia].
  - assert ((if (lo =? 0)%nat then k (c :: s) else None) = Some x ->
            exists s', k s' = Some x /\ length s' + lo <= S (length s)) as Hstop.
    { destruct (Nat.eqb_spec lo 0); [|discriminate].
      intros H. exists (c :: s). split; [done | cbn; lia]. }
    destruct (p c && can_more hi); [|by apply Hstop].
    destruct (rep p (Nat.pred lo) (Nat.pred <$> hi) s k) as [y|] eqn:Hr;
      [|by apply Hstop].
    intros [= ->]. apply IH in Hr as (s' & Hk & Hlen).
    exists s'. split; [done | lia].
Qed.

Lemma run_inv {A} r : forall s g (k : list ascii -> capture -> option A) x,
  groups_nonempty r = true -> g <> Some [] ->
  run r s g k = Some x ->
  exists s' g', k s' g' = Some x /\ g' <> Some []
                /\ length s' + min_len r <= length s.
Proof.
  induction r as [l | c lo hi | a IHa b IHb | a IHa b IHb | a IHa];
    intros s g k x Hok Hg; cbn in *.
  - destruct (match_lit l s) as [s'|] eqn:Hl; [|discriminate].
    intros Hk. apply match_lit_length in Hl. exists s', g.
    repeat split; [done | done | lia].
  - intros Hr. apply rep_inv in Hr as (s' & Hk & Hlen).
    by exists s', g.
  - apply andb_true_iff in Hok as [Ha Hb]. intros Hr.
    apply IHa in Hr as (s1 & g1 & Hr & Hg1 & Hl1); [|done|done].
    apply IHb in Hr as (s2 & g2 & Hk & Hg2 & Hl2); [|done|done].
    exists s2, g2. repeat split; [done | done | lia].
  - apply andb_true_iff in Hok as [Ha Hb].
    destruct (run a s g k) as [y|] eqn:Hra.
    + intros [= ->]. apply IHa in Hra as (s1 & g1 & Hk & Hg1 & Hl1); [|done|done].
      exists s1, g1. repeat split; [done | done | lia].
    + intros Hrb. apply IHb in Hrb as (s1 & g1 & Hk & Hg1 & Hl1); [|done|done].
      exists s1, g1. repeat split; [done | done | lia].
  - apply andb_true_iff in Hok as [Hmin Ha].
    intros Hr. apply IHa in Hr as (s1 & g1 & Hk & _ & Hl1); [|done|done].
    exists s1, (Some (take (length s - length s1) s)).
    repeat split; [done | | done].
    intros [= Hnil]. apply (f_equal length) in Hnil.
    rewrite length_take in Hnil. cbn in Hnil.
    destruct (min_len a); [discriminate | lia].
Qed.

Lemma search_list_group r s g :
  groups_nonempty r = true -> search_list r s = Some g -> g <> Some [].
Proof.
  intros Hok. induction s as [|c s IH]; cbn.
  - destruct (match_here r []) as [g'|] eqn:Hm; [|discriminate].
    intros [= ->]. unfold match_here in Hm.
    apply run_inv in Hm as (s' & g' & [= ->] & Hg & _); done.
  - destruct (match_here r (c :: s)) as [g'|] eqn:Hm; [|exact IH].
    intros [= ->]. unfold match_here in Hm.
    apply run_inv in Hm as (s' & g' & [= ->] & Hg & _); done.
Qed.

Lemma search_str_group r html mo :
  groups_nonempty r = true -> search_str r html = Some mo ->
  group1 mo <> Some EmptyString.
Proof.
  intros Hok. unfold search_str.
  destruct (search_list r (list_ascii_of_string html)) as [g|] eqn:Hs;
    [|discriminate].
  intros [= <-]. cbn. apply search_list_group in Hs; [|done].
  destruct g as [[|c cs]|]; cbn; congruence.
Qed.

Lemma find_id_nonempty pats html :
  forallb groups_nonempty pats = true ->
  find_id pats html <> Some EmptyString.
Proof.
  induction pats as [|pat rest IH]; cbn; [discriminate|].
  intros Hok. apply andb_true_iff in Hok as [Hp Hr].
  destruct (search_str pat html) as [mo|] eqn:Hs.
  - by apply (search_str_group pat html).
  - by apply IH.
Qed.

Lemma find_id_truthy pats html :
  forallb groups_nonempty pats = true ->
  truthy (find_id pats html) = is_some (find_id pats html).
Proof.
  intros Hok. pose proof (find_id_nonempty pats html Hok) as Hne.
  destruct (find_id pats html) as [a|]; [|reflexivity].
  cbn. apply truthy_Some. congruence.
Qed.

(** ** Extraction *)

Lemma first_id_str pats html :
  first_id pats (PyStr html) = Ok (find_id pats html).
Proof.
  induction pats as [|pat rest IH]; cbn; [reflexivity|].
  destruct (search_str pat html); [reflexivity | exact IH].
Qed.

(** The phone extraction in closed form; in particular it returns. *)
Lemma phone_extract_eq html :
  Phone.extract_activity html
  = Ok (if negb (truthy (find_id Phone.ID_PATTERNS html))
           && shows WAITING_HINT html
           && negb (shows Phone.pat_respond_frame html)
        then inactive
        else {| activity_id := find_id Phone.ID_PATTERNS html;
                accepting := shows Phone.ACCEPTING_HINTS html
                             || shows Phone.pat_response_forms html
                             || shows Phone.pat_respond_frame html;
                title := find_title [pat_heading "h1"; pat_heading "h2";
                                     pat_any_heading] html |}).
Proof.
  unfold Phone.extract_activity. rewrite first_id_str.
  unfold shows, re_search, bind. cbn [find_title].
  destruct (negb (truthy _) && _ && _); [reflexivity|].
  destruct (search_str (pat_heading "h1") html) as [m1|]; cbn [is_some];
    [| destruct (search_str (pat_heading "h2") html) as [m2|]; cbn [is_some] ];
    destruct (search_str Phone.ACCEPTING_HINTS html); cbn [is_some negb orb];
    try reflexivity;
    destruct (search_str Phone.pat_response_forms html); cbn [is_some orb];
    try reflexivity;
    destruct (search_str Phone.pat_respond_frame html); reflexivity.
Qed.

Lemma telegram_extract_eq html :
  Telegram.extract_activity html
  = Ok (if shows WAITING_HINT html then inactive
        else {| activity_id := find_id Telegram.ID_PATTERNS html;
                accepting := shows Telegram.ACCEPTING_HINTS html;
                title := find_title [pat_heading "h1"; pat_heading "h2"]
                           html |}).
Proof.
  unfold Telegram.extract_activity. rewrite first_id_str.
  unfold shows, re_search, bind. cbn [find_title].
  destruct (search_str WAITING_HINT html); cbn [is_some]; [reflexivity|].
  destruct (search_str (pat_heading "h1") html) as [m1|]; cbn [is_some];
    [| destruct (search_str (pat_heading "h2") html) as [m2|] ];
    reflexivity.
Qed.

Lemma phone_extract_total html : exists e, Phone.extract_activity html = Ok e.
Proof. rewrite phone_extract_eq. eauto. Qed.

Lemma telegram_extract_total html :
  exists e, Telegram.extract_activity html = Ok e.
Proof. rewrite telegram_extract_eq. eauto. Qed.

(** C2. The extraction of the SMS script raises [TypeError] on every page:
    its title searches hand [re.I] to [re.search] as the subject.  (Those of
    the phone and Telegram scripts return on every page:
    [phone_extract_total], [telegram_extract_total].) *)
Theorem sms_extract_always_raises (html : string) :
  Sms.extract_activity html = Raise TypeError.
Proof.
  unfold Sms.extract_activity. rewrite first_id_str. reflexivity.
Qed.

(** The ids that the extractions return are never the empty string: for
    them, to be present is to be truthy. *)
Lemma phone_id_truthy html :
  truthy (find_id Phone.ID_PATTERNS html)
  = is_some (find_id Phone.ID_PATTERNS html).
Proof. by apply find_id_truthy. Qed.

Lemma telegram_id_truthy html :
  truthy (find_id Telegram.ID_PATTERNS html)
  = is_some (find_id Telegram.ID_PATTERNS html).
Proof. by apply find_id_truthy. Qed.

Lemma phone_extracted_id_truthy html e :
  Phone.extract_activity html = Ok e ->
  truthy (activity_id e) = is_some (activity_id e).
Proof.
  rewrite phone_extract_eq. intros [= <-].
  destruct (_ && _); [reflexivity | apply phone_id_truthy].
Qed.

Lemma telegram_extracted_id_truthy html e :
  Telegram.extract_activity html = Ok e ->
  truthy (activity_id e) = is_some (activity_id e).
Proof.
  rewrite telegram_extract_eq. intros [= <-].
  destruct (shows _ _); [reflexivity | apply telegram_id_truthy].
Qed.

(** ** What the waiting hint matches *)

Lemma match_lit_spec l s s' :
  match_lit l s = Some s'
  <-> exists mid, s = mid ++ s'
                  /\ map lower mid = map lower (list_ascii_of_string l).
Proof.
  revert s. induction l as [|a l IH]; intros s; cbn.
  - split.
    + intros [= ->]. by exists [].
    + intros (mid & -> & Hm). by destruct mid.
  - destruct s as [|c s].
    + split; [discriminate|]. intros (mid & Hs & Hm).
      destruct mid; [discriminate | discriminate].
    + destruct (Ascii.eqb_spec (lower a) (lower c)) as [Heq|Hne].
      * rewrite IH. split.
        -- intros (mid & -> & Hm). exists (c :: mid). cbn. by rewrite Hm, Heq.
        -- intros (mid & Hs & Hm). destruct mid as [|c' mid]; [discriminate|].
           cbn in Hs, Hm. injection Hs as -> ->. injection Hm as _ Hm.
           by exists mid.
      * split; [discriminate|]. intros (mid & Hs & Hm).
        destruct mid as [|c' mid]; [discriminate|].
        cbn in Hs, Hm. injection Hs as -> ->. injection Hm as Hc _.
        congruence.
Qed.

Lemma search_list_spec r s :
  is_some (search_list r s) = true
  <-> exists pre suf, s = pre ++ suf /\ is_some (match_here r suf) = true.
Proof.
  induction s as [|c s IH]; cbn.
  - destruct (match_here r []) eqn:Hm; cbn.
    + split; [|done]. intros _. exists [], []. by rewrite Hm.
    + split; [discriminate|]. intros (pre & suf & Hs & Hsuf).
      symmetry in Hs. apply app_eq_nil in Hs as [-> ->].
      by rewrite Hm in Hsuf.
  - destruct (match_here r (c :: s)) eqn:Hm; cbn.
    + split; [|done]. intros _. exists [], (c :: s). by rewrite Hm.
    + rewrite IH. split.
      * intros (pre & suf & -> & Hsuf). by exists (c :: pre), suf.
      * intros (pre & suf & Hs & Hsuf). destruct pre as [|c' pre].
        -- cbn in Hs. subst suf. by rewrite Hm in Hsuf.
        -- cbn in Hs. injection Hs as -> ->. by exists pre, suf.
Qed.

Lemma shows_literal w html :
  shows (Grp (Lit w)) html = true <-> contains_ci w html.
Proof.
  unfold shows, search_str, contains_ci.
  set (s := list_ascii_of_string html).
  transitivity (is_some (search_list (Grp (Lit w)) s) = true).
  { destruct (search_list (Grp (Lit w)) s); done. }
  rewrite search_list_spec. split.
  - intros (pre & suf & -> & Hm). unfold match_here in Hm. cbn in Hm.
    destruct (match_lit w suf) as [post|] eqn:Hl; [|discriminate].
    apply match_lit_spec in Hl as (mid & -> & Hmid). by exists pre, mid, post.
  - intros (pre & mid & post & -> & Hmid). exists pre, (mid ++ post).
    split; [done|]. unfold match_here. cbn.
    assert (match_lit w (mid ++ post) = Some post) as ->; [|done].
    apply match_lit_spec. by exists mid.
Qed.

Lemma waiting_hint_spec html :
  shows WAITING_HINT html = true <-> contains_ci "waiting" html.
Proof. apply shows_literal. Qed.

(** ** The short-circuit of the extraction *)

Lemma waiting_without_response_markers_not_empty :
  shows WAITING_HINT page_waiting_with_id = true
  /\ shows Phone.pat_respond_frame page_waiting_with_id = false
  /\ shows Phone.pat_response_forms page_waiting_with_id = false
  /\ Phone.extract_activity page_waiting_with_id
     = Ok {| activity_id := Some "7"; accepting := false; title := None |}
  /\ Phone.extract_activity page_waiting_with_id <> Ok inactive.
Proof. vm_compute. repeat split; discriminate. Qed.

Example telegram_waiting_forces_empty :
  Telegram.extract_activity page_waiting_with_form = Ok inactive
  /\ Phone.extract_activity page_waiting_with_form
     = Ok {| activity_id := Some "12"; accepting := true; title := None |}.
Proof. vm_compute. auto. Qed.

(** C6, as the phone script has it.  The extraction returns the empty result
    by its early return exactly when no activity id is found, the waiting
    text occurs in the page and no frame to respond is present; in every
    other case it returns the id found and the disjunction of the accepting
    signals.  In particular a frame to respond next to the waiting text
    gives an accepting result. *)
Theorem phone_short_circuit (html : string) :
  let found := find_id Phone.ID_PATTERNS html in
  let frame := shows Phone.pat_respond_frame html in
  (found = None -> contains_ci "waiting" html -> frame = false ->
   Phone.extract_activity html = Ok inactive)
  /\ (found <> None \/ ~ contains_ci "waiting" html \/ frame = true ->
      exists t,
        Phone.extract_activity html
        = Ok {| activity_id := found;
                accepting := shows Phone.ACCEPTING_HINTS html
                             || shows Phone.pat_response_forms html
                             || frame;
                title := t |})
  /\ (frame = true ->
      exists e, Phone.extract_activity html = Ok e /\ accepting e = true).
Proof.
  intros found frame. rewrite phone_extract_eq, phone_id_truthy.
  fold found frame. repeat split.
  - intros -> Hw ->. apply waiting_hint_spec in Hw. by rewrite Hw.
  - intros Hor.
    assert (negb (is_some found) && shows WAITING_HINT html && negb frame
            = false) as ->; [|eauto].
    destruct Hor as [Hf | [Hw | ->]].
    + by destruct found.
    + destruct (shows WAITING_HINT html) eqn:Hs.
      * by apply waiting_hint_spec in Hs.
      * by rewrite andb_false_r.
    + by rewrite andb_false_r.
  - intros ->. rewrite andb_false_r. eexists. split; [reflexivity|].
    cbn. by rewrite orb_true_r.
Qed.

Lemma phone_short_circuit_witness :
  Phone.extract_activity "<p>Waiting for the presenter</p>" = Ok inactive.
Proof.
  apply (phone_short_circuit "<p>Waiting for the presenter</p>").
  - reflexivity.
  - exists (list_ascii_of_string "<p>"), (list_ascii_of_string "Waiting"),
      (list_ascii_of_string " for the presenter</p>").
    split; reflexivity.
  - reflexivity.
Defined.

(** ** The transitions *)

#[global] Arguments py_eq : simpl never.
#[global] Arguments truthy : simpl never.
#[global] Arguments changed_reason : simpl never.

Ltac unfold_loop :=
  cbv [phone_step telegram_step sms_step telegram_tick sms_tick
       Telegram.tick Telegram.body Telegram.transition Telegram.send_telegram
       Phone.tick Phone.body Phone.transition Phone.call_all
       Sms.tick Sms.body Sms.transition Sms.send_sms
       try_except store_tokens refresh_tokens send sess_get save_state
       set_state set_last_id set_etag set_last_modified
       get raise emit lift pass mbind mret M_bind M_ret].

(** ** The tests on the activity id *)

Lemma changed_new_id e l a :
  activity_id e = Some a -> a <> EmptyString -> last_id l <> Some a ->
  changed_reason e l = Some NewActivityLive.
Proof.
  intros Hid Ha Hne. unfold changed_reason. rewrite Hid.
  apply truthy_Some in Ha. rewrite Ha.
  assert (py_eq (Some a) (last_id l) = false) as ->.
  { apply py_eq_false. congruence. }
  reflexivity.
Qed.

Lemma changed_reason_latched e l :
  activity_id e = last_id l ->
  alerted_accepting_for_id (state l) = activity_id e ->
  changed_reason e l = None.
Proof.
  intros H1 H2. unfold changed_reason.
  rewrite H2, <- H1, !py_eq_refl. cbn.
  rewrite !andb_false_r. reflexivity.
Qed.

Lemma changed_reason_locked e l :
  activity_id e = last_id l -> accepting e = false ->
  changed_reason e l = None.
Proof.
  intros H1 H2. unfold changed_reason.
  rewrite <- H1, py_eq_refl, H2. cbn.
  rewrite !andb_false_r. reflexivity.
Qed.

(** The state of the loops after the alert for a new activity. *)
Lemma phone_new_id_transition (l : loop) (e : extraction) (a : string) :
  activity_id e = Some a -> a <> EmptyString -> last_id l <> Some a ->
  Phone.transition e l
  = (Ok tt,
     {| last_id := Some a; etag := etag l; last_modified := last_modified l;
        state := (if accepting e then with_alerted (Some a) else id)
                   (with_last_seen_id (Some a) (state l)) |},
     [Sent (alert_for NewActivityLive e)]).
Proof.
  intros Hid Ha Hne.
  pose proof (changed_new_id e l a Hid Ha Hne) as Hc.
  unfold_loop. rewrite Hc, Hid.
  apply truthy_Some in Ha. rewrite Ha. cbn.
  destruct (accepting e); reflexivity.
Qed.

(** C1. A present activity id that differs from [last_id] is a new live
    activity.  The phone loop sends exactly one alert, with the reason of a
    new activity, sets [last_id] and [state["last_seen_id"]] to the new id
    and, when the activity is accepting, latches
    [state["alerted_accepting_for_id"]] on it in the same step, so that the
    tests of a further alert fail in the new state; the Telegram loop does
    the same when [send_telegram] returns.  When [send_telegram] raises, the
    Telegram loop leaves the iteration before the update: no alert is sent,
    [last_id] and the state are as they were, and the activity is still new
    to the loop. *)
Theorem went_live_on_new_id (l : loop) (e : extraction) (a : string) :
  activity_id e = Some a -> a <> EmptyString -> last_id l <> Some a ->
  (exists l',
     Phone.transition e l
       = (Ok tt, l', [Sent (alert_for NewActivityLive e)])
     /\ Telegram.transition true e l
       = (Ok tt, l', [Sent (alert_for NewActivityLive e)])
     /\ last_id l' = Some a
     /\ last_seen_id (state l') = Some a
     /\ (accepting e = true -> alerted_accepting_for_id (state l') = Some a)
     /\ changed_reason e l' = None)
  /\ Telegram.transition false e l = (Raise RuntimeError, l, [])
  /\ telegram_step (false, e) l = (l, [])
  /\ changed_reason e (fst (telegram_step (false, e) l))
     = Some NewActivityLive.
Proof.
  intros Hid Ha Hne.
  pose proof (changed_new_id e l a Hid Ha Hne) as Hc.
  unfold_loop. rewrite Hc, Hid.
  apply truthy_Some in Ha. rewrite Ha. cbn.
  split; [|by rewrite Hc].
  destruct (accepting e) eqn:Hacc; cbn; eexists;
    (split; [reflexivity|]); (split; [reflexivity|]); cbn;
    repeat split; try congruence.
  - apply changed_reason_latched; cbn; congruence.
  - apply changed_reason_locked; cbn; congruence.
Qed.

Lemma went_live_on_new_id_witness :
  let e := {| activity_id := Some "42"; accepting := true; title := None |} in
  (exists l',
     Phone.transition e (init empty_state)
       = (Ok tt, l', [Sent (alert_for NewActivityLive e)])
     /\ Telegram.transition true e (init empty_state)
       = (Ok tt, l', [Sent (alert_for NewActivityLive e)])
     /\ last_id l' = Some "42"
     /\ last_seen_id (state l') = Some "42"
     /\ alerted_accepting_for_id (state l') = Some "42"
     /\ changed_reason e l' = None)
  /\ Telegram.transition false e (init empty_state)
     = (Raise RuntimeError, init empty_state, [])
  /\ telegram_step (false, e) (init empty_state) = (init empty_state, [])
  /\ changed_reason e (fst (telegram_step (false, e) (init empty_state)))
     = Some NewActivityLive.
Proof.
  intros e.
  destruct (went_live_on_new_id (init empty_state) e "42")
    as ((l' & Hphone & Htelegram & Hid & Hseen & Hlatch & Hquiet)
        & Hraise & Hstep & Hagain);
    [reflexivity | discriminate | discriminate |].
  split; [|split; [exact Hraise | split; [exact Hstep | exact Hagain]]].
  exists l'.
  split; [exact Hphone | split; [exact Htelegram | split; [exact Hid |]]].
  split; [exact Hseen | split; [apply Hlatch; reflexivity | exact Hquiet]].
Defined.

(** ** Case analysis on the tests of a tick *)

#[global] Arguments Phone.extract_activity : simpl never.
#[global] Arguments Telegram.extract_activity : simpl never.
#[global] Arguments Sms.extract_activity : simpl never.

Ltac plain x :=
  lazymatch x with
  | activity_id ?e => is_var e
  | last_id ?l => is_var l
  | alerted_accepting_for_id (state ?l) => is_var l
  | last_seen_id (state ?l) => is_var l
  | None => idtac
  | Some ?a => is_var a
  end.

(** One of the boolean tests of the loop whose operands are known: decided
    from the context, or split in two cases. *)
Ltac atom :=
  match goal with
  | |- context [py_eq ?x ?x] => rewrite (py_eq_refl x)
  | |- context [py_eq None (Some ?a)] => change (py_eq None (Some a)) with false
  | |- context [py_eq (Some ?a) None] => change (py_eq (Some a) None) with false
  | |- context [truthy None] => change (truthy None) with false
  | H : last_id ?l = _ |- context [last_id ?l] => is_var l; rewrite H
  | H : truthy ?x = _ |- context [truthy ?x] => rewrite H
  | H : py_eq ?x ?y = _ |- context [py_eq ?x ?y] => rewrite H
  | H : accepting ?x = _ |- context [accepting ?x] => rewrite H
  | H : is_some ?x = _ |- context [is_some ?x] => rewrite H
  | |- context [truthy ?x] => plain x; destruct (truthy x) eqn:?
  | |- context [py_eq ?x ?y] => plain x; plain y; destruct (py_eq x y) eqn:?
  | |- context [accepting ?e] => is_var e; destruct (accepting e) eqn:?
  | |- context [is_some ?x] => plain x; destruct (is_some x) eqn:?
  end; cbn.

(** The branches of a tick before the extraction. *)
Ltac open_tick f resp :=
  unfold_loop; destruct f as [|resp]; cbn;
  [ try reflexivity
  | destruct (status_code resp =? 304)%Z eqn:?; cbn;
    [ try reflexivity
    | destruct (ok resp) eqn:?; cbn; [|try reflexivity] ] ].

(** ** A tick on a fresh page *)

Lemma phone_tick_fresh resp l e :
  status_code resp <> 304%Z -> ok resp = true ->
  Phone.extract_activity (text resp) = Ok e ->
  Phone.tick (Responds resp) l = finish (Phone.transition e (refreshed resp l)).
Proof.
  intros H304 Hok He. apply Z.eqb_neq in H304.
  unfold_loop. cbn. rewrite H304, Hok, He. cbn.
  destruct (changed_reason e _); cbn; repeat atom; reflexivity.
Qed.

Lemma telegram_tick_fresh d resp l e :
  status_code resp <> 304%Z -> ok resp = true ->
  Telegram.extract_activity (text resp) = Ok e ->
  Telegram.tick d (Responds resp) l
  = finish (Telegram.transition d e (refreshed resp l)).
Proof.
  intros H304 Hok He. apply Z.eqb_neq in H304.
  unfold_loop. cbn. rewrite H304, Hok, He. cbn.
  destruct (changed_reason e _); cbn; destruct d; cbn; repeat atom;
    reflexivity.
Qed.

(** The new activity through the whole tick of the phone loop: the id of an
    extraction is never empty, and the tick ends with the state saved. *)
Lemma phone_tick_went_live resp l e a :
  status_code resp <> 304%Z -> ok resp = true ->
  Phone.extract_activity (text resp) = Ok e ->
  activity_id e = Some a -> last_id l <> Some a ->
  let r := Phone.tick (Responds resp) l in
  alerts (snd r) = [alert_for NewActivityLive e]
  /\ last_id (fst r) = Some a
  /\ last_seen_id (state (fst r)) = Some a
  /\ (accepting e = true ->
      alerted_accepting_for_id (state (fst r)) = Some a)
  /\ In (Saved (state (fst r))) (snd r).
Proof.
  intros H304 Hok He Hid Hne.
  assert (a <> EmptyString) as Ha.
  { pose proof (phone_extracted_id_truthy _ _ He) as Ht.
    rewrite Hid in Ht. by apply truthy_Some. }
  rewrite (phone_tick_fresh _ _ _ H304 Hok He).
  rewrite (phone_new_id_transition (refreshed resp l) e a Hid Ha Hne).
  cbn. repeat split.
  - by destruct (accepting e).
  - by intros ->.
  - right. by left.
Qed.

(** The extraction of the SMS script raises on every page (C2 above), and
    so its loop never sends an alert. *)
Lemma sms_never_alerts d f l : alerts (snd (Sms.tick d f l)) = [].
Proof.
  open_tick f resp.
  assert (Sms.extract_activity (text resp) = Raise TypeError) as ->.
  { unfold Sms.extract_activity. rewrite first_id_str. reflexivity. }
  reflexivity.
Qed.

(** ** Duplicate ticks *)

Lemma run_loop_app {I} (tick : I -> loop -> loop * list event) xs ys l :
  run_loop tick (xs ++ ys) l
  = let '(l1, ev1) := run_loop tick xs l in
    let '(l2, ev2) := run_loop tick ys l1 in
    (l2, ev1 ++ ev2).
Proof.
  revert l. induction xs as [|x xs IH]; intros l; cbn.
  - destruct (run_loop tick ys l). reflexivity.
  - destruct (tick x l) as [l1 ev1]. rewrite IH.
    destruct (run_loop tick xs l1) as [l2 ev2].
    destruct (run_loop tick ys l2) as [l3 ev3].
    by rewrite app_assoc.
Qed.

Lemma alerts_app evs1 evs2 : alerts (evs1 ++ evs2) = alerts evs1 ++ alerts evs2.
Proof. unfold alerts. apply omap_app. Qed.














(** ** Locking and re-opening an activity *)

(** The phone loop re-arms: accepting, locked, accepting again under one id
    gives two alerts, and the locked tick clears the latch silently. *)
Lemma phone_rearm_law (l : loop) (a : string) (t1 t2 t3 : option string) :
  a <> EmptyString -> last_id l = Some a ->
  alerted_accepting_for_id (state l) <> Some a ->
  let r1 := phone_step (seen a true t1) l in
  let r2 := phone_step (seen a false t2) (fst r1) in
  let r3 := phone_step (seen a true t3) (fst r2) in
  map why (alerts (snd r1)) = [NowAccepting]
  /\ alerts (snd r2) = []
  /\ alerted_accepting_for_id (state (fst r2)) = None
  /\ map why (alerts (snd r3)) = [NowAccepting].
Proof.
  intros Ha Hl Hal. apply truthy_Some in Ha.
  apply py_eq_false in Hal.
  unfold_loop. unfold changed_reason. cbn. repeat atom. auto.
Qed.

(** C3. The Telegram loop has no branch for an activity that stops accepting:
    with the id equal to [last_id] throughout, the ticks accepting, not
    accepting, accepting send one alert in all; the second tick sends nothing
    and leaves [state["alerted_accepting_for_id"]] on the id, and so the third
    tick, which re-opens the activity, is silent. *)
Theorem telegram_no_rearm (l : loop) (a : string) (t1 t2 t3 : option string) :
  a <> EmptyString -> last_id l = Some a ->
  alerted_accepting_for_id (state l) <> Some a ->
  let r1 := telegram_step (true, seen a true t1) l in
  let r2 := telegram_step (true, seen a false t2) (fst r1) in
  let r3 := telegram_step (true, seen a true t3) (fst r2) in
  map why (alerts (snd r1)) = [NowAccepting]
  /\ alerts (snd r2) = []
  /\ alerted_accepting_for_id (state (fst r2)) = Some a
  /\ alerts (snd r3) = [].
Proof.
  intros Ha Hl Hal. apply truthy_Some in Ha.
  apply py_eq_false in Hal.
  unfold_loop. unfold changed_reason. cbn. repeat atom. auto.
Qed.

Lemma telegram_no_rearm_witness :
  let r1 := telegram_step (true, seen "7" true None) (watching "7") in
  let r2 := telegram_step (true, seen "7" false None) (fst r1) in
  let r3 := telegram_step (true, seen "7" true None) (fst r2) in
  map why (alerts (snd r1)) = [NowAccepting]
  /\ alerts (snd r2) = []
  /\ alerted_accepting_for_id (state (fst r2)) = Some "7"
  /\ alerts (snd r3) = [].
Proof.
  apply (telegram_no_rearm (watching "7") "7" None None None);
    [discriminate | reflexivity | discriminate].
Defined.

Example telegram_pages_no_rearm :
  let r := run_loop telegram_tick
             [(true, page_open); (true, page_locked); (true, page_open)]
             (watching "7") in
  map why (alerts (snd r)) = [NowAccepting].
Proof. vm_compute. reflexivity. Qed.

Example phone_rearm_pages :
  let r := run_loop Phone.tick [page_open; page_locked; page_open]
             (watching "7") in
  map why (alerts (snd r)) = [NowAccepting; NowAccepting].
Proof. vm_compute. reflexivity. Qed.

(** ** An activity that goes away and comes back *)

(** The phone loop on live, down, live with one id: the down tick is silent
    and clears [last_id] and the latch, and the id alerts again. *)
Lemma phone_down_up_law (l : loop) (a : string) (acc1 acc3 : bool)
    (t1 t3 : option string) (gone : extraction) :
  a <> EmptyString -> last_id l <> Some a -> truthy (activity_id gone) = false ->
  let r1 := phone_step (seen a acc1 t1) l in
  let r2 := phone_step gone (fst r1) in
  let r3 := phone_step (seen a acc3 t3) (fst r2) in
  map why (alerts (snd r1)) = [NewActivityLive]
  /\ alerts (snd r2) = []
  /\ last_id (fst r2) = None
  /\ last_seen_id (state (fst r2)) = None
  /\ alerted_accepting_for_id (state (fst r2)) = None
  /\ map why (alerts (snd r3)) = [NewActivityLive].
Proof.
  intros Ha Hl Hg. apply truthy_Some in Ha.
  assert (py_eq (Some a) (last_id l) = false) as Hne.
  { apply py_eq_false. congruence. }
  unfold_loop. unfold changed_reason. cbn. repeat atom.
  destruct acc1, acc3; cbn; repeat atom; repeat split; reflexivity.
Qed.

(** C4. The down tick of the Telegram loop (no activity id while [last_id]
    is set) is silent and clears [last_id] and [state["last_seen_id"]], but
    it leaves [state["alerted_accepting_for_id"]] as it was.  The SMS loop has
    no down tick at all: it keeps its whole state, and the activity that
    comes back under the id of [last_id] is not announced. *)
Theorem telegram_down_keeps_latch (d : bool) (gone : extraction) (l : loop) :
  truthy (activity_id gone) = false -> is_some (last_id l) = true ->
  (let r := telegram_step (d, gone) l in
   alerts (snd r) = []
   /\ last_id (fst r) = None
   /\ last_seen_id (state (fst r)) = None
   /\ alerted_accepting_for_id (state (fst r))
      = alerted_accepting_for_id (state l))
  /\ sms_step (d, gone) l = (l, [])
  /\ (forall a t, last_id l = Some a ->
        alerts (snd (sms_step (true, seen a false t)
                       (fst (sms_step (d, gone) l)))) = []).
Proof.
  intros Hg Hl. repeat split.
  1-5: unfold_loop; unfold changed_reason; cbn; repeat atom;
       destruct l as [? ? ? []]; reflexivity.
  intros a t Ha. unfold_loop. unfold changed_reason. cbn.
  repeat atom; rewrite ?andb_false_r; reflexivity.
Qed.

Lemma telegram_down_keeps_latch_witness :
  (let r := telegram_step (true, inactive) (alerted_on "7") in
   alerts (snd r) = []
   /\ last_id (fst r) = None
   /\ last_seen_id (state (fst r)) = None
   /\ alerted_accepting_for_id (state (fst r)) = Some "7")
  /\ sms_step (true, inactive) (alerted_on "7") = (alerted_on "7", [])
  /\ alerts (snd (sms_step (true, seen "7" false None)
                    (fst (sms_step (true, inactive) (alerted_on "7")))))
     = [].
Proof.
  destruct (telegram_down_keeps_latch true inactive (alerted_on "7"))
    as (Htelegram & Hsms & Hback); [reflexivity | reflexivity |].
  split; [exact Htelegram | split; [exact Hsms |]].
  apply (Hback "7" None). reflexivity.
Defined.

(** What the stale latch costs: the activity comes back locked and is then
    opened, and the Telegram loop does not announce that it accepts. *)
Example telegram_down_up_pages :
  let inputs := [page_open; page_idle; page_locked; page_open] in
  map why (alerts (snd (run_loop telegram_tick (map (pair true) inputs)
                          (init empty_state))))
  = [NewActivityLive; NewActivityLive]
  /\ map why (alerts (snd (run_loop Phone.tick inputs (init empty_state))))
     = [NewActivityLive; NewActivityLive; NowAccepting].
Proof. vm_compute. auto. Qed.

(** ** The latch [state["alerted_accepting_for_id"]] *)

Lemma phone_step_latch e l :
  let v := alerted_accepting_for_id (state (fst (phone_step e l))) in
  v = alerted_accepting_for_id (state l) \/ v = None
  \/ (v = activity_id e /\ truthy (activity_id e) = true).
Proof.
  unfold_loop. unfold changed_reason. cbn.
  repeat atom; destruct l as [? ? ? []]; cbn; auto.
Qed.

Lemma telegram_step_latch i l :
  let v := alerted_accepting_for_id (state (fst (telegram_step i l))) in
  v = alerted_accepting_for_id (state l) \/ v = None
  \/ (v = activity_id (snd i) /\ truthy (activity_id (snd i)) = true).
Proof.
  destruct i as [d e]. unfold_loop. unfold changed_reason. cbn.
  repeat atom; destruct d; cbn; repeat atom; destruct l as [? ? ? []]; cbn;
    auto.
Qed.

Lemma phone_run_latch (es : list extraction) (l : loop) (a : string) :
  alerted_accepting_for_id (state (fst (run_loop phone_step es l))) = Some a ->
  alerted_accepting_for_id (state l) = Some a
  \/ exists e, e ∈ es /\ activity_id e = Some a.
Proof.
  revert l. induction es as [|e es IH]; intros l; cbn; [by left|].
  pose proof (phone_step_latch e l) as Hs. cbn in Hs.
  destruct (phone_step e l) as [l1 ev1]. cbn [fst] in Hs.
  specialize (IH l1). destruct (run_loop phone_step es l1) as [l2 ev2].
  cbn [fst] in *. intros Hfin. destruct (IH Hfin) as [H1 | (e' & Hin & He')].
  - destruct Hs as [Hs | [Hs | [Hs _]]].
    + left. congruence.
    + congruence.
    + right. exists e. split; [apply elem_of_cons; by left | congruence].
  - right. exists e'. split; [apply elem_of_cons; by right | done].
Qed.

Lemma telegram_run_latch (ins : list (bool * extraction)) (l : loop) (a : string) :
  alerted_accepting_for_id (state (fst (run_loop telegram_step ins l))) = Some a ->
  alerted_accepting_for_id (state l) = Some a
  \/ exists i, i ∈ ins /\ activity_id (snd i) = Some a.
Proof.
  revert l. induction ins as [|i ins IH]; intros l; cbn; [by left|].
  pose proof (telegram_step_latch i l) as Hs. cbn in Hs.
  destruct (telegram_step i l) as [l1 ev1]. cbn [fst] in Hs.
  specialize (IH l1). destruct (run_loop telegram_step ins l1) as [l2 ev2].
  cbn [fst] in *. intros Hfin. destruct (IH Hfin) as [H1 | (i' & Hin & Hi')].
  - destruct Hs as [Hs | [Hs | [Hs _]]].
    + left. congruence.
    + congruence.
    + right. exists i. split; [apply elem_of_cons; by left | congruence].
  - right. exists i'. split; [apply elem_of_cons; by right | done].
Qed.

Lemma phone_down_clears e l :
  truthy (activity_id e) = false -> is_some (last_id l) = true ->
  alerted_accepting_for_id (state (fst (phone_step e l))) = None.
Proof.
  intros He Hl. unfold_loop. unfold changed_reason. cbn.
  repeat atom. reflexivity.
Qed.

Lemma phone_new_id_latch e l :
  truthy (activity_id e) = true -> py_eq (activity_id e) (last_id l) = false ->
  alerted_accepting_for_id (state (fst (phone_step e l)))
  = if accepting e then activity_id e else alerted_accepting_for_id (state l).
Proof.
  intros He Hl. unfold_loop. unfold changed_reason. cbn.
  repeat atom; reflexivity.
Qed.

(** With the id changed and the new activity not accepting, the latch keeps
    the id of the activity that is gone. *)
Lemma latch_survives_identity_change :
  let l1 := fst (phone_step (seen "1" true None) (init empty_state)) in
  let l2 := fst (phone_step (seen "2" false None) l1) in
  last_id l1 = Some "1"
  /\ alerted_accepting_for_id (state l1) = Some "1"
  /\ last_id l2 = Some "2"
  /\ alerted_accepting_for_id (state l2) = Some "1".
Proof. vm_compute. auto. Qed.

(** What the latch holds.  When set, it is its value at the start of the
    run or the activity id of an extraction seen since, in the phone and in
    the Telegram loop.  The phone loop clears it on every tick that finds
    no activity while [last_id] is set.  On a tick whose id differs from
    [last_id] it becomes the new id when the activity is accepting, and is
    left as it was otherwise. *)
Theorem latch_holds_an_observed_id :
  (forall (es : list extraction) (l : loop) (a : string),
     alerted_accepting_for_id (state (fst (run_loop phone_step es l))) = Some a ->
     alerted_accepting_for_id (state l) = Some a
     \/ exists e, e ∈ es /\ activity_id e = Some a)
  /\ (forall (ins : list (bool * extraction)) (l : loop) (a : string),
       alerted_accepting_for_id (state (fst (run_loop telegram_step ins l)))
       = Some a ->
       alerted_accepting_for_id (state l) = Some a
       \/ exists i, i ∈ ins /\ activity_id (snd i) = Some a)
  /\ (forall e l,
       truthy (activity_id e) = false -> is_some (last_id l) = true ->
       alerted_accepting_for_id (state (fst (phone_step e l))) = None)
  /\ (forall e l,
       truthy (activity_id e) = true ->
       py_eq (activity_id e) (last_id l) = false ->
       alerted_accepting_for_id (state (fst (phone_step e l)))
       = if accepting e then activity_id e
         else alerted_accepting_for_id (state l)).
Proof.
  repeat split.
  - apply phone_run_latch.
  - apply telegram_run_latch.
  - apply phone_down_clears.
  - apply phone_new_id_latch.
Qed.

Lemma latch_holds_an_observed_id_witness :
  alerted_accepting_for_id
    (state (fst (phone_step inactive (alerted_on "7")))) = None
  /\ alerted_accepting_for_id
       (state (fst (phone_step (seen "8" true None) (alerted_on "7"))))
     = Some "8".
Proof.
  destruct latch_holds_an_observed_id as (_ & _ & Hdown & Hnew). split.
  - apply Hdown; reflexivity.
  - apply (Hnew (seen "8" true None) (alerted_on "7")); reflexivity.
Defined.

(** C5.  The latch is not cleared when the activity changes identity.  An
    activity [a] is announced while it accepts, a locked activity [b] takes
    its place, and [a] comes back locked: the three ticks alert for a new
    activity, and through the two changes of identity the latch keeps the
    id [a], in the phone loop as in the Telegram loop.  When [a] then opens,
    the tests find the latch on [a] and the tick is silent, where the same
    opening from an empty latch is announced.  In general a tick whose id
    differs from [last_id] and whose activity is not accepting leaves the
    latch as it was, whatever it holds. *)
Theorem stale_latch_hides_reopening (l : loop) (a b : string)
    (t1 t2 t3 t4 : option string) :
  a <> EmptyString -> b <> EmptyString -> a <> b -> last_id l <> Some a ->
  (let r1 := phone_step (seen a true t1) l in
   let r2 := phone_step (seen b false t2) (fst r1) in
   let r3 := phone_step (seen a false t3) (fst r2) in
   let r4 := phone_step (seen a true t4) (fst r3) in
   map why (alerts (snd r1)) = [NewActivityLive]
   /\ alerted_accepting_for_id (state (fst r1)) = Some a
   /\ map why (alerts (snd r2)) = [NewActivityLive]
   /\ last_id (fst r2) = Some b
   /\ alerted_accepting_for_id (state (fst r2)) = Some a
   /\ map why (alerts (snd r3)) = [NewActivityLive]
   /\ last_id (fst r3) = Some a
   /\ alerted_accepting_for_id (state (fst r3)) = Some a
   /\ alerts (snd r4) = [])
  /\ (let r1 := telegram_step (true, seen a true t1) l in
      let r2 := telegram_step (true, seen b false t2) (fst r1) in
      let r3 := telegram_step (true, seen a false t3) (fst r2) in
      let r4 := telegram_step (true, seen a true t4) (fst r3) in
      map why (alerts (snd r1)) = [NewActivityLive]
      /\ alerted_accepting_for_id (state (fst r1)) = Some a
      /\ map why (alerts (snd r2)) = [NewActivityLive]
      /\ last_id (fst r2) = Some b
      /\ alerted_accepting_for_id (state (fst r2)) = Some a
      /\ map why (alerts (snd r3)) = [NewActivityLive]
      /\ last_id (fst r3) = Some a
      /\ alerted_accepting_for_id (state (fst r3)) = Some a
      /\ alerts (snd r4) = [])
  /\ (alerted_accepting_for_id (state l) = None ->
      let r3 := phone_step (seen a false t3) l in
      let r4 := phone_step (seen a true t4) (fst r3) in
      map why (alerts (snd r3)) = [NewActivityLive]
      /\ map why (alerts (snd r4)) = [NowAccepting])
  /\ (forall (e : extraction) (l0 : loop) (d : bool),
        truthy (activity_id e) = true ->
        py_eq (activity_id e) (last_id l0) = false ->
        accepting e = false ->
        alerted_accepting_for_id (state (fst (phone_step e l0)))
        = alerted_accepting_for_id (state l0)
        /\ alerted_accepting_for_id (state (fst (telegram_step (d, e) l0)))
           = alerted_accepting_for_id (state l0)).
Proof.
  intros Ha Hb Hab Hl.
  apply truthy_Some in Ha. apply truthy_Some in Hb.
  assert (py_eq (Some a) (last_id l) = false) as Hne.
  { apply py_eq_false. congruence. }
  assert (py_eq (Some b) (Some a) = false) as Hba.
  { apply py_eq_false. congruence. }
  assert (py_eq (Some a) (Some b) = false) as Hab'.
  { apply py_eq_false. congruence. }
  split; [|split; [|split]].
  - unfold_loop. unfold changed_reason. cbn. repeat atom. by repeat split.
  - unfold_loop. unfold changed_reason. cbn. repeat atom. by repeat split.
  - intros Hnone. cbv zeta. unfold_loop. unfold changed_reason. cbn.
    repeat atom; try (rewrite Hnone in *; discriminate); by repeat split.
  - intros e l0 d He Hnew Hacc. unfold_loop. unfold changed_reason. cbn.
    repeat atom; destruct d; cbn; repeat atom; by split.
Qed.

Lemma stale_latch_hides_reopening_witness :
  (let r1 := phone_step (seen "1" true None) (init empty_state) in
   let r2 := phone_step (seen "2" false None) (fst r1) in
   let r3 := phone_step (seen "1" false None) (fst r2) in
   let r4 := phone_step (seen "1" true None) (fst r3) in
   map why (alerts (snd r1)) = [NewActivityLive]
   /\ alerted_accepting_for_id (state (fst r1)) = Some "1"
   /\ map why (alerts (snd r2)) = [NewActivityLive]
   /\ last_id (fst r2) = Some "2"
   /\ alerted_accepting_for_id (state (fst r2)) = Some "1"
   /\ map why (alerts (snd r3)) = [NewActivityLive]
   /\ last_id (fst r3) = Some "1"
   /\ alerted_accepting_for_id (state (fst r3)) = Some "1"
   /\ alerts (snd r4) = [])
  /\ (let r3 := phone_step (seen "1" false None) (init empty_state) in
      let r4 := phone_step (seen "1" true None) (fst r3) in
      map why (alerts (snd r3)) = [NewActivityLive]
      /\ map why (alerts (snd r4)) = [NowAccepting]).
Proof.
  destruct (stale_latch_hides_reopening (init empty_state) "1" "2"
              None None None None)
    as (Hphone & _ & Hdirect & _);
    [discriminate | discriminate | discriminate | discriminate |].
  split; [exact Hphone | apply Hdirect; reflexivity].
Defined.

(** The same on pages, through the whole ticks of the two loops: the
    opening of activity 1 after the detour is not announced. *)
Example stale_latch_pages :
  let detour := [page_activity "1" "You may respond";
                 page_activity "2" "Locked";
                 page_activity "1" "Locked";
                 page_activity "1" "You may respond"] in
  let direct := [page_activity "1" "Locked";
                 page_activity "1" "You may respond"] in
  map why (alerts (snd (run_loop Phone.tick detour (init empty_state))))
  = [NewActivityLive; NewActivityLive; NewActivityLive]
  /\ map why (alerts (snd (run_loop telegram_tick (map (pair true) detour)
                             (init empty_state))))
     = [NewActivityLive; NewActivityLive; NewActivityLive]
  /\ map why (alerts (snd (run_loop Phone.tick direct (init empty_state))))
     = [NewActivityLive; NowAccepting].
Proof. vm_compute. auto. Qed.

(** ** Ticks answered with 304 *)

Lemma init_tokens_stored st : tokens_stored (init st).
Proof. split; reflexivity. Qed.

Lemma tokens_written_stored l : tokens_stored (tokens_written l).
Proof. split; reflexivity. Qed.


(** A tick that reaches [save_state] leaves the tokens stored. *)
Lemma phone_saved_tokens_stored f l st :
  In (Saved st) (snd (Phone.tick f l)) ->
  tokens_stored (fst (Phone.tick f l)).
Proof.
  open_tick f resp; try (cbn; intros []; done); try (intros _; split; reflexivity).
  destruct (Phone.extract_activity (text resp)) as [e|ex]; cbn;
    [|intros []].
  destruct (changed_reason e _); cbn; repeat atom; intros _; split; reflexivity.
Qed.

Lemma telegram_saved_tokens_stored d f l st :
  In (Saved st) (snd (Telegram.tick d f l)) ->
  tokens_stored (fst (Telegram.tick d f l)).
Proof.
  open_tick f resp; try (cbn; intros []; done); try (intros _; split; reflexivity).
  destruct (Telegram.extract_activity (text resp)) as [e|ex]; cbn;
    [|intros []].
  destruct (changed_reason e _); cbn; destruct d; cbn; repeat atom;
    try (intros []; done); intros _; split; reflexivity.
Qed.




(** ** Loading the state *)

Lemma load_state_never_raises f : exists v, load_state f = Ok v.
Proof. destruct f as [|e|v]; cbn; eauto. Qed.

Lemma load_state_fresh f :
  (f = Absent \/ exists e, f = Unloadable e) ->
  load_state f = Ok empty_dict /\ Web.load_state f = Ok empty_dict.
Proof. intros [-> | [e ->]]; split; reflexivity. Qed.

Lemma load_state_object members :
  load_state (Holds (JObject members)) = Ok (JObject members).
Proof. reflexivity. Qed.

Lemma web_load_state_eq f : Web.load_state f = load_state f.
Proof. destruct f as [|e|v]; reflexivity. Qed.

(** C10. On a state file that holds the JSON text of an empty list,
    [load_state] returns that list, which is not a dict, in the four
    scripts; the first [state.get] of [main] then raises [AttributeError],
    outside every [try]. *)
Theorem load_state_returns_a_list :
  load_state (Holds (JArray [])) = Ok (JArray [])
  /\ Web.load_state (Holds (JArray [])) = Ok (JArray [])
  /\ is_dict (JArray []) = false
  /\ startup (Holds (JArray [])) = Raise AttributeError.
Proof. repeat split. Qed.

(** ** Starting a monitor twice *)

Section Start.

Import Web.

Variables (data : start_request).

Let url : string := strip (default EmptyString (pollUrl data)).
Let phone : string := strip (default EmptyString (phoneNumber data)).

Hypothesis url_given : is_empty url = false.
Hypothesis phone_given : is_empty phone = false.
Hypothesis url_http : String.prefix "http" url = true.

Lemma start_conflict (now : Z) (active_monitors : gmap string monitor) :
  is_running (make_monitor_id url phone) active_monitors = true ->
  start_monitor now data active_monitors
  = (Failure already_exists 400, active_monitors, None).
Proof using url_given phone_given url_http.
  intros Hrun. unfold start_monitor. fold url phone.
  rewrite url_given, phone_given, url_http. cbn [orb negb].
  rewrite Hrun. reflexivity.
Qed.

Lemma start_accepted (now : Z) (active_monitors : gmap string monitor) :
  is_running (make_monitor_id url phone) active_monitors = false ->
  start_monitor now data active_monitors
  = (Success (Some (make_monitor_id url phone)),
     <[make_monitor_id url phone :=
         {| poll_url := url; phone_number := phone; status := "starting";
            started_at := now; error := None |}]> active_monitors,
     Some {| thread_poll_url := url; thread_phone_number := phone;
             thread_monitor_id := make_monitor_id url phone |}).
Proof using url_given phone_given url_http.
  intros Hfree. unfold start_monitor. fold url phone.
  rewrite url_given, phone_given, url_http. cbn [orb negb].
  rewrite Hfree. reflexivity.
Qed.

End Start.

Lemma monitor_poll_start_running t m (active_monitors : gmap string Web.monitor) :
  active_monitors !! Web.thread_monitor_id t = Some m ->
  exists reg,
    Web.monitor_poll_start true t active_monitors = Ok reg
    /\ Web.is_running (Web.thread_monitor_id t) reg = true
    /\ dom reg = dom active_monitors.
Proof.
  intros Hm. unfold Web.monitor_poll_start. rewrite Hm. cbn.
  eexists. split; [reflexivity|]. split.
  - unfold Web.is_running. by rewrite lookup_insert_eq.
  - rewrite dom_insert_L.
    assert (Web.thread_monitor_id t ∈ dom active_monitors) as Hin.
    { apply elem_of_dom. by exists m. }
    by apply subseteq_union_1_L, singleton_subseteq_l.
Qed.

(** C9. The id of a monitor is [make_monitor_id] of the stripped URL and
    phone number, whatever the clock and the registry.  A start for a pair
    whose monitor is running is answered with the error of an existing
    monitor and status 400; it starts no thread and leaves the registry as
    it was.  So for two starts in a row, the thread of the first having
    reached its loop: the first is accepted and starts one thread, the
    second is refused, and the registry keeps its one entry for the id. *)
Theorem duplicate_start_rejected (data : Web.start_request)
    (active_monitors : gmap string Web.monitor) (now1 now2 : Z) :
  let url := strip (default EmptyString (Web.pollUrl data)) in
  let phone := strip (default EmptyString (Web.phoneNumber data)) in
  let id := Web.make_monitor_id url phone in
  Web.is_empty url = false -> Web.is_empty phone = false ->
  String.prefix "http" url = true ->
  (forall reg, Web.is_running id reg = true ->
     Web.start_monitor now2 data reg = (Web.Failure Web.already_exists 400, reg, None))
  /\ (Web.is_running id active_monitors = false ->
      exists reg1 t reg2,
        Web.start_monitor now1 data active_monitors
        = (Web.Success (Some id), reg1, Some t)
        /\ Web.thread_monitor_id t = id
        /\ Web.monitor_poll_start true t reg1 = Ok reg2
        /\ Web.is_running id reg2 = true
        /\ dom reg2 = {[id]} ∪ dom active_monitors
        /\ Web.start_monitor now2 data reg2
           = (Web.Failure Web.already_exists 400, reg2, None)).
Proof.
  intros url phone id Hu Hp Hh. split.
  - intros reg Hrun. by apply start_conflict.
  - intros Hfree.
    pose proof (start_accepted data Hu Hp Hh now1 active_monitors Hfree) as H1.
    fold url phone id in H1.
    set (t := {| Web.thread_poll_url := url; Web.thread_phone_number := phone;
                 Web.thread_monitor_id := id |}) in *.
    set (reg1 := <[id := _]> active_monitors) in *.
    destruct (monitor_poll_start_running t _ reg1 (lookup_insert_eq _ _ _))
      as (reg2 & H2 & Hrun & Hdom).
    exists reg1, t, reg2. repeat split; try done.
    + rewrite Hdom. unfold reg1. by rewrite dom_insert_L.
    + by apply start_conflict.
Qed.

Lemma duplicate_start_rejected_witness :
  exists reg1 t reg2,
    Web.start_monitor 0 sample_request ∅
    = (Web.Success (Some "c01c45674e58"), reg1, Some t)
    /\ Web.thread_monitor_id t = "c01c45674e58"
    /\ Web.monitor_poll_start true t reg1 = Ok reg2
    /\ Web.is_running "c01c45674e58" reg2 = true
    /\ dom reg2 = {[ "c01c45674e58" ]} ∪ dom (∅ : gmap string Web.monitor)
    /\ Web.start_monitor 1 sample_request reg2
       = (Web.Failure Web.already_exists 400, reg2, None).
Proof.
  apply (duplicate_start_rejected sample_request ∅ 0 1);
    vm_compute; reflexivity.
Defined.

(** * Further properties *)

(** ** The ticks of the four loops *)

#[global] Arguments Monitor.extract_activity : simpl never.

Ltac unfold_monitor :=
  cbv [Monitor.tick Monitor.body Monitor.transition Monitor.make_phone_call
       try_except store_tokens refresh_tokens sess_get save_state
       set_state set_last_id set_etag set_last_modified
       get raise emit lift pass mbind mret M_bind M_ret].

Ltac open_monitor_tick f resp :=
  unfold_monitor; destruct f as [|resp]; cbn;
  [ try reflexivity
  | destruct (status_code resp =? 304)%Z eqn:?; cbn;
    [ try reflexivity
    | destruct (ok resp) eqn:?; cbn; [|try reflexivity] ] ].

Lemma monitor_extract_eq html :
  Monitor.extract_activity html
  = Ok (if shows WAITING_HINT html then inactive
        else {| activity_id := find_id Monitor.ID_PATTERNS html;
                accepting := shows Monitor.ACCEPTING_HINTS html
                             || shows Monitor.pat_response_forms html;
                title := find_title [pat_heading "h1"; pat_heading "h2";
                                     pat_any_heading] html |}).
Proof.
  unfold Monitor.extract_activity. rewrite first_id_str.
  unfold shows, re_search, bind. cbn [find_title].
  destruct (search_str WAITING_HINT html); cbn [is_some]; [reflexivity|].
  destruct (search_str (pat_heading "h1") html) as [m1|]; cbn [is_some];
    [| destruct (search_str (pat_heading "h2") html) as [m2|]; cbn [is_some] ];
    destruct (search_str Monitor.ACCEPTING_HINTS html); cbn [is_some negb orb];
    try reflexivity;
    destruct (search_str Monitor.pat_response_forms html); reflexivity.
Qed.

Lemma monitor_tick_fresh resp l e :
  status_code resp <> 304%Z -> ok resp = true ->
  Monitor.extract_activity (text resp) = Ok e ->
  Monitor.tick (Responds resp) l = finish (Monitor.transition e (refreshed resp l)).
Proof.
  intros H304 Hok He. apply Z.eqb_neq in H304.
  unfold_monitor. cbn. rewrite H304, Hok, He. cbn.
  destruct (changed_reason e _); cbn; repeat atom; reflexivity.
Qed.



(** X2.  A tick that gets no fresh page.  When the request fails, the
    four loops leave their variables as they were and write nothing.  On an
    answer with an error status the three scripts send no alert, keep what
    they know of the activity and end the tick as one answered with 304:
    they store the tokens and save the state; the monitor of the web
    application changes nothing and saves nothing, on an error status as on
    a 304. *)
Theorem tick_without_fresh_page (d : bool) (l : loop) :
  (Phone.tick Unreachable l = (l, [])
   /\ Telegram.tick d Unreachable l = (l, [])
   /\ Sms.tick d Unreachable l = (l, [])
   /\ Monitor.tick Unreachable l = (l, []))
  /\ (forall resp, ok resp = false ->
        let l' := tokens_written l in
        Phone.tick (Responds resp) l = (l', [Saved (state l')])
        /\ Telegram.tick d (Responds resp) l = (l', [Saved (state l')])
        /\ Sms.tick d (Responds resp) l = (l', [Saved (state l')])
        /\ Monitor.tick (Responds resp) l = (l, []))
  /\ (forall resp, status_code resp = 304%Z ->
        Monitor.tick (Responds resp) l = (l, [])).
Proof.
  split; [by repeat split|]. split.
  - intros resp Hok.
    assert ((status_code resp =? 304)%Z = false) as H304.
    { apply Z.eqb_neq. intros H. unfold ok in Hok. rewrite H in Hok.
      discriminate. }
    unfold_loop. unfold_monitor. cbn. rewrite H304, Hok. by repeat split.
  - intros resp H304. unfold_monitor. cbn. by rewrite H304.
Qed.

Lemma tick_without_fresh_page_witness :
  Phone.tick (Responds (answer_status 503)) (init empty_state)
  = (init empty_state, [Saved empty_state])
  /\ Monitor.tick (Responds (answer_status 503)) (init empty_state)
     = (init empty_state, [])
  /\ Monitor.tick (Responds (answer_status 304)) (init empty_state)
     = (init empty_state, []).
Proof.
  destruct (tick_without_fresh_page true (init empty_state))
    as (_ & Herr & H304).
  destruct (Herr (answer_status 503)) as (Hphone & _ & _ & Hweb);
    [reflexivity|].
  split; [exact Hphone | split; [exact Hweb | apply H304; reflexivity]].
Defined.

Lemma sms_tick_inert i l :
  let r := sms_tick i l in
  alerts (snd r) = [] /\ last_id (fst r) = last_id l
  /\ last_seen_id (state (fst r)) = last_seen_id (state l)
  /\ alerted_accepting_for_id (state (fst r))
     = alerted_accepting_for_id (state l).
Proof.
  destruct i as [d f]. open_tick f resp; try by repeat split.
  assert (Sms.extract_activity (text resp) = Raise TypeError) as ->.
  { unfold Sms.extract_activity. rewrite first_id_str. reflexivity. }
  by repeat split.
Qed.

(** X3.  The SMS loop is inert.  Over any run, whatever the server
    answers and whatever the gateway does, the loop of [pollwatch_sms.py]
    sends no alert and never changes [last_id], [state["last_seen_id"]] or
    the latch: its extraction raises on every fresh page. *)
Theorem sms_loop_is_inert (ins : list (bool * fetch)) (l : loop) :
  let r := run_loop sms_tick ins l in
  alerts (snd r) = [] /\ last_id (fst r) = last_id l
  /\ last_seen_id (state (fst r)) = last_seen_id (state l)
  /\ alerted_accepting_for_id (state (fst r))
     = alerted_accepting_for_id (state l).
Proof.
  revert l. induction ins as [|i ins IH]; intros l; cbn; [by repeat split|].
  pose proof (sms_tick_inert i l) as H1. cbn in H1.
  destruct (sms_tick i l) as [l1 ev1]. cbn [fst snd] in H1.
  specialize (IH l1). cbn in IH.
  destruct (run_loop sms_tick ins l1) as [l2 ev2]. cbn [fst snd] in *.
  destruct H1 as (Ha & Hb & Hc & Hd), IH as (Ia & Ib & Ic & Id).
  rewrite alerts_app, Ha, Ia. repeat split; congruence.
Qed.

Lemma changed_reason_refreshed e resp l :
  changed_reason e (refreshed resp l) = changed_reason e l.
Proof. reflexivity. Qed.

Lemma telegram_not_modified_run (resps : list response) (ds : list bool) l :
  Forall (fun resp => status_code resp = 304%Z) resps ->
  let r := run_loop telegram_tick (zip ds (map Responds resps)) l in
  alerts (snd r) = [] /\ last_id (fst r) = last_id l
  /\ etag (fst r) = etag l.
Proof.
  intros Hall. revert ds l.
  induction Hall as [|resp resps H304 _ IH]; intros ds l.
  - destruct ds; by repeat split.
  - destruct ds as [|d ds]; [by repeat split|]. cbn.
    change (telegram_tick (d, Responds resp) l)
      with (Telegram.tick d (Responds resp) l).
    assert (Telegram.tick d (Responds resp) l
            = (tokens_written l, [Saved (state (tokens_written l))])) as ->.
    { unfold_loop. cbn. by rewrite H304. }
    specialize (IH ds (tokens_written l)). cbn in IH.
    destruct (run_loop _ _ (tokens_written l)) as [l2 ev2].
    cbn [fst snd] in *. destruct IH as (Ia & Ib & Ic).
    rewrite alerts_app, Ia. by repeat split.
Qed.

(** X4.  An alert that Telegram refuses.  On a fresh page that calls
    for an alert, a tick whose [send_telegram] raises sends nothing and saves
    nothing; it leaves [last_id] and the state as they were, but the
    variables [etag] and [last_modified] are refreshed from the answer.
    As long as the server then answers 304, no alert is sent and [last_id]
    stays as it was; the alert goes out once the server sends the page
    again and the gateway accepts the message. *)
Theorem telegram_failed_send_loses_alert (resp : response) (e : extraction)
    (l : loop) (why_changed : reason) (resps : list response)
    (ds : list bool) :
  status_code resp <> 304%Z -> ok resp = true ->
  Telegram.extract_activity (text resp) = Ok e ->
  changed_reason e l = Some why_changed ->
  Forall (fun r => status_code r = 304%Z) resps ->
  let r1 := Telegram.tick false (Responds resp) l in
  let r2 := run_loop telegram_tick (zip ds (map Responds resps)) (fst r1) in
  snd r1 = []
  /\ etag (fst r1) = py_or (hdr_etag resp) (etag l)
  /\ last_modified (fst r1) = py_or (hdr_last_modified resp) (last_modified l)
  /\ last_id (fst r1) = last_id l
  /\ state (fst r1) = state l
  /\ alerts (snd r2) = []
  /\ last_id (fst r2) = last_id l
  /\ alerts (snd (Telegram.tick true (Responds resp) (fst r1)))
     = [alert_for why_changed e].
Proof.
  intros H304 Hok He Hc Hall. cbv zeta.
  rewrite (telegram_tick_fresh false resp l e H304 Hok He).
  rewrite (telegram_tick_fresh true resp _ e H304 Hok He).
  unfold Telegram.transition. cbv [mbind M_bind get].
  rewrite !changed_reason_refreshed, Hc. cbn.
  rewrite changed_reason_refreshed, Hc.
  pose proof (telegram_not_modified_run resps ds (refreshed resp l) Hall) as Hrun.
  cbn in Hrun. destruct Hrun as (Ha & Hb & _).
  repeat split; try done.
  unfold changed_reason in Hc.
  unfold_loop. cbn. repeat atom; try discriminate; reflexivity.
Qed.

Lemma telegram_failed_send_loses_alert_witness :
  let resp := answer_tagged "v1" html_open in
  let r1 := Telegram.tick false (Responds resp) (init empty_state) in
  let r2 := run_loop telegram_tick
              (zip [true; true] (map Responds [answer_status 304;
                                               answer_status 304]))
              (fst r1) in
  snd r1 = []
  /\ etag (fst r1) = py_or (hdr_etag resp) (etag (init empty_state))
  /\ last_modified (fst r1)
     = py_or (hdr_last_modified resp) (last_modified (init empty_state))
  /\ last_id (fst r1) = last_id (init empty_state)
  /\ state (fst r1) = state (init empty_state)
  /\ alerts (snd r2) = []
  /\ last_id (fst r2) = last_id (init empty_state)
  /\ alerts (snd (Telegram.tick true (Responds resp) (fst r1)))
     = [alert_for NewActivityLive (seen "7" true None)].
Proof.
  apply (telegram_failed_send_loses_alert (answer_tagged "v1" html_open)
           (seen "7" true None) (init empty_state) NewActivityLive
           [answer_status 304; answer_status 304] [true; true]).
  - discriminate.
  - reflexivity.
  - vm_compute. reflexivity.
  - reflexivity.
  - repeat constructor.
Defined.


Lemma phone_tick_mirror f l :
  last_id l = last_seen_id (state l) ->
  last_id (fst (Phone.tick f l)) = last_seen_id (state (fst (Phone.tick f l))).
Proof.
  intros Hm. open_tick f resp; try exact Hm.
  destruct (Phone.extract_activity (text resp)) as [e|ex]; cbn; [|exact Hm].
  destruct (changed_reason e _); cbn; repeat atom; done.
Qed.

Lemma telegram_tick_mirror d f l :
  last_id l = last_seen_id (state l) ->
  last_id (fst (Telegram.tick d f l))
  = last_seen_id (state (fst (Telegram.tick d f l))).
Proof.
  intros Hm. open_tick f resp; try exact Hm.
  destruct (Telegram.extract_activity (text resp)) as [e|ex]; cbn; [|exact Hm].
  destruct (changed_reason e _); cbn; destruct d; cbn; repeat atom; done.
Qed.

Lemma monitor_tick_mirror f l :
  last_id l = last_seen_id (state l) ->
  last_id (fst (Monitor.tick f l)) = last_seen_id (state (fst (Monitor.tick f l))).
Proof.
  intros Hm. open_monitor_tick f resp; try exact Hm.
  destruct (Monitor.extract_activity (text resp)) as [e|ex]; cbn; [|exact Hm].
  destruct (changed_reason e _); cbn; repeat atom; done.
Qed.

Lemma run_loop_invariant {I} (tick : I -> loop -> loop * list event)
    (P : loop -> Prop) :
  (forall i l, P l -> P (fst (tick i l))) ->
  forall ins l, P l -> P (fst (run_loop tick ins l)).
Proof.
  intros Hstep ins. induction ins as [|i ins IH]; intros l Hl; cbn; [done|].
  specialize (Hstep i l Hl). destruct (tick i l) as [l1 ev1].
  specialize (IH l1 Hstep). by destruct (run_loop tick ins l1).
Qed.

Lemma init_state_of l :
  last_id l = last_seen_id (state l) -> tokens_stored l -> init (state l) = l.
Proof.
  destruct l as [i e m [s se sm al]]. intros H1 [H2 H3]. cbn in *. by subst.
Qed.

Lemma phone_saved_is_final f l st :
  In (Saved st) (snd (Phone.tick f l)) ->
  st = state (fst (Phone.tick f l)) /\ tokens_stored (fst (Phone.tick f l)).
Proof.
  open_tick f resp; try (cbn; intros []; done);
    try (intros [[= <-]|[]]; by repeat split).
  destruct (Phone.extract_activity (text resp)) as [e|ex]; cbn;
    [|intros []].
  destruct (changed_reason e _); cbn; repeat atom;
    intros H; repeat (destruct H as [[=]|H]); try done; subst; by repeat split.
Qed.

Lemma telegram_saved_is_final d f l st :
  In (Saved st) (snd (Telegram.tick d f l)) ->
  st = state (fst (Telegram.tick d f l))
  /\ tokens_stored (fst (Telegram.tick d f l)).
Proof.
  open_tick f resp; try (cbn; intros []; done);
    try (intros [[= <-]|[]]; by repeat split).
  destruct (Telegram.extract_activity (text resp)) as [e|ex]; cbn;
    [|intros []].
  destruct (changed_reason e _); cbn; destruct d; cbn; repeat atom;
    intros H; repeat (destruct H as [[=]|H]); try done; subst; by repeat split.
Qed.

Lemma monitor_saved_is_final f l st :
  In (Saved st) (snd (Monitor.tick f l)) ->
  st = state (fst (Monitor.tick f l)) /\ tokens_stored (fst (Monitor.tick f l)).
Proof.
  open_monitor_tick f resp; try (cbn; intros []; done);
    try (intros [[= <-]|[]]; by repeat split).
  destruct (Monitor.extract_activity (text resp)) as [e|ex]; cbn;
    [|intros []].
  destruct (changed_reason e _); cbn; repeat atom;
    intros H; repeat (destruct H as [[=]|H]); try done; subst; by repeat split.
Qed.

(** X5.  The saved state resumes the loop.  In a run that starts from a
    loaded state, whenever a tick of the phone loop, of the Telegram loop or
    of a monitor saves the state, the variables that a restart reads from
    the saved state are the variables the running loop goes on with. *)
Theorem saved_state_resumes_the_loop (st st' : watch_state) (f : fetch)
    (d : bool) :
  (forall fs,
     let l := fst (run_loop Phone.tick fs (init st)) in
     In (Saved st') (snd (Phone.tick f l)) -> init st' = fst (Phone.tick f l))
  /\ (forall ins,
        let l := fst (run_loop telegram_tick ins (init st)) in
        In (Saved st') (snd (Telegram.tick d f l)) ->
        init st' = fst (Telegram.tick d f l))
  /\ (forall fs,
        let l := fst (run_loop Monitor.tick fs (init st)) in
        In (Saved st') (snd (Monitor.tick f l)) ->
        init st' = fst (Monitor.tick f l)).
Proof.
  split; [|split].
  - intros fs l Hin. apply phone_saved_is_final in Hin as [-> Htok].
    apply init_state_of; [|done]. apply phone_tick_mirror.
    by apply (run_loop_invariant Phone.tick
                (fun l => last_id l = last_seen_id (state l))
                phone_tick_mirror).
  - intros ins l Hin. apply telegram_saved_is_final in Hin as [-> Htok].
    apply init_state_of; [|done]. apply telegram_tick_mirror.
    apply (run_loop_invariant telegram_tick
             (fun l => last_id l = last_seen_id (state l))); [|done].
    intros [d' f'] l'. apply telegram_tick_mirror.
  - intros fs l Hin. apply monitor_saved_is_final in Hin as [-> Htok].
    apply init_state_of; [|done]. apply monitor_tick_mirror.
    by apply (run_loop_invariant Monitor.tick
                (fun l => last_id l = last_seen_id (state l))
                monitor_tick_mirror).
Qed.

Lemma saved_state_resumes_the_loop_witness :
  let l := fst (run_loop Phone.tick [page_open] (init empty_state)) in
  let r := Phone.tick page_locked l in
  init (state (fst r)) = fst r.
Proof.
  intros l r.
  destruct (saved_state_resumes_the_loop empty_state (state (fst r))
              page_locked true) as (Hphone & _ & _).
  apply (Hphone [page_open]). vm_compute. auto.
Defined.

(** ** Sequences of ticks *)

Lemma monitor_second_tick_silent f l :
  alerts (snd (Monitor.tick f (fst (Monitor.tick f l)))) = [].
Proof.
  open_monitor_tick f resp.
  destruct (Monitor.extract_activity (text resp)) as [e|ex]; cbn; [|reflexivity].
  unfold changed_reason; cbn.
  repeat atom; reflexivity.
Qed.

Lemma monitor_tick_one_alert f l : length (alerts (snd (Monitor.tick f l))) <= 1.
Proof.
  open_monitor_tick f resp; try (cbn; lia).
  destruct (Monitor.extract_activity (text resp)) as [e|ex]; cbn; [|lia].
  destruct (changed_reason e _); cbn; repeat atom; cbn; lia.
Qed.

Lemma monitor_repeats_silent f n l :
  alerts (snd (run_loop Monitor.tick (repeat f n) (fst (Monitor.tick f l))))
  = [].
Proof.
  revert l. induction n as [|n IH]; intros l; cbn; [reflexivity|].
  pose proof (monitor_second_tick_silent f l) as H2.
  pose proof (IH (fst (Monitor.tick f l))) as H3.
  destruct (Monitor.tick f (fst (Monitor.tick f l))) as [l2 ev2].
  cbn [fst snd] in *. destruct (run_loop _ _ l2) as [l3 ev3]. cbn [fst snd] in *.
  by rewrite alerts_app, H2, H3.
Qed.

(** X6.  Duplicate ticks of a monitor.  A monitor of the web
    application that receives the same answer any number of times in a row
    sends at most one alert over all of these ticks. *)
Theorem monitor_repeats_one_alert (f : fetch) (n : nat) (l : loop) :
  length (alerts (snd (run_loop Monitor.tick (repeat f n) l))) <= 1.
Proof.
  destruct n as [|n]; cbn; [lia|].
  pose proof (monitor_tick_one_alert f l) as H1.
  pose proof (monitor_repeats_silent f n l) as H2.
  destruct (Monitor.tick f l) as [l1 ev1]. cbn [fst snd] in *.
  destruct (run_loop _ _ l1) as [l2 ev2]. cbn [fst snd] in *.
  rewrite alerts_app, H2, app_nil_r. exact H1.
Qed.

(** X7.  A monitor of the web application does not re-arm.  Its loop has
    no branch for an activity that stops accepting: on fresh pages that show
    one activity accepting, locked and accepting again it alerts once; the
    locked tick leaves the latch on the id and the re-opening is silent. *)
Theorem monitor_never_rearms (l : loop) (a : string) (r1 r2 r3 : response)
    (t1 t2 t3 : option string) :
  a <> EmptyString -> last_id l = Some a ->
  alerted_accepting_for_id (state l) <> Some a ->
  Forall (fun r => status_code r <> 304%Z /\ ok r = true) [r1; r2; r3] ->
  Monitor.extract_activity (text r1) = Ok (seen a true t1) ->
  Monitor.extract_activity (text r2) = Ok (seen a false t2) ->
  Monitor.extract_activity (text r3) = Ok (seen a true t3) ->
  let s1 := Monitor.tick (Responds r1) l in
  let s2 := Monitor.tick (Responds r2) (fst s1) in
  let s3 := Monitor.tick (Responds r3) (fst s2) in
  map why (alerts (snd s1)) = [NowAccepting]
  /\ alerts (snd s2) = []
  /\ alerted_accepting_for_id (state (fst s2)) = Some a
  /\ alerts (snd s3) = [].
Proof.
  intros Ha Hl Hal Hfresh H1 H2 H3.
  apply Forall_cons in Hfresh as [[F1 O1] Hfresh].
  apply Forall_cons in Hfresh as [[F2 O2] Hfresh].
  apply Forall_cons in Hfresh as [[F3 O3] _].
  cbv zeta.
  rewrite (monitor_tick_fresh r1 l _ F1 O1 H1).
  rewrite (monitor_tick_fresh r2 _ _ F2 O2 H2).
  rewrite (monitor_tick_fresh r3 _ _ F3 O3 H3).
  apply truthy_Some in Ha. apply py_eq_false in Hal.
  unfold_monitor. unfold changed_reason. cbn. repeat atom. auto.
Qed.

Lemma monitor_never_rearms_witness :
  let s1 := Monitor.tick page_open (watching "7") in
  let s2 := Monitor.tick page_locked (fst s1) in
  let s3 := Monitor.tick page_open (fst s2) in
  map why (alerts (snd s1)) = [NowAccepting]
  /\ alerts (snd s2) = []
  /\ alerted_accepting_for_id (state (fst s2)) = Some "7"
  /\ alerts (snd s3) = [].
Proof.
  apply (monitor_never_rearms (watching "7") "7" (answer html_open)
           (answer html_locked) (answer html_open) None None None).
  - discriminate.
  - reflexivity.
  - discriminate.
  - repeat constructor; discriminate.
  - vm_compute. reflexivity.
  - vm_compute. reflexivity.
  - vm_compute. reflexivity.
Defined.

(** X8.  A monitor, down and up.  As in the phone loop, a page
    without activity between two sightings of one id is silent, clears
    [last_id], [monitor_state["last_seen_id"]] and the latch, and the id
    alerts again as a new activity. *)
Theorem monitor_realerts_after_down (l : loop) (a : string) (r1 r2 r3 : response)
    (acc1 acc3 : bool) (t1 t3 : option string) (gone : extraction) :
  a <> EmptyString -> last_id l <> Some a ->
  Forall (fun r => status_code r <> 304%Z /\ ok r = true) [r1; r2; r3] ->
  Monitor.extract_activity (text r1) = Ok (seen a acc1 t1) ->
  Monitor.extract_activity (text r2) = Ok gone ->
  activity_id gone = None ->
  Monitor.extract_activity (text r3) = Ok (seen a acc3 t3) ->
  let s1 := Monitor.tick (Responds r1) l in
  let s2 := Monitor.tick (Responds r2) (fst s1) in
  let s3 := Monitor.tick (Responds r3) (fst s2) in
  map why (alerts (snd s1)) = [NewActivityLive]
  /\ alerts (snd s2) = []
  /\ last_id (fst s2) = None
  /\ last_seen_id (state (fst s2)) = None
  /\ alerted_accepting_for_id (state (fst s2)) = None
  /\ map why (alerts (snd s3)) = [NewActivityLive].
Proof.
  intros Ha Hl Hfresh H1 H2 Hg H3.
  apply Forall_cons in Hfresh as [[F1 O1] Hfresh].
  apply Forall_cons in Hfresh as [[F2 O2] Hfresh].
  apply Forall_cons in Hfresh as [[F3 O3] _].
  cbv zeta.
  rewrite (monitor_tick_fresh r1 l _ F1 O1 H1).
  rewrite (monitor_tick_fresh r2 _ _ F2 O2 H2).
  rewrite (monitor_tick_fresh r3 _ _ F3 O3 H3).
  apply truthy_Some in Ha.
  assert (py_eq (Some a) (last_id l) = false) as Hne.
  { apply py_eq_false. congruence. }
  unfold_monitor. unfold changed_reason. rewrite Hg. cbn. repeat atom.
  destruct acc1, acc3; cbn; repeat atom; repeat split; reflexivity.
Qed.

Lemma monitor_realerts_after_down_witness :
  let s1 := Monitor.tick page_open (init empty_state) in
  let s2 := Monitor.tick page_idle (fst s1) in
  let s3 := Monitor.tick page_open (fst s2) in
  map why (alerts (snd s1)) = [NewActivityLive]
  /\ alerts (snd s2) = []
  /\ last_id (fst s2) = None
  /\ last_seen_id (state (fst s2)) = None
  /\ alerted_accepting_for_id (state (fst s2)) = None
  /\ map why (alerts (snd s3)) = [NewActivityLive].
Proof.
  apply (monitor_realerts_after_down (init empty_state) "7" (answer html_open)
           (answer html_idle) (answer html_open) true true None None
           {| activity_id := None; accepting := false; title := None |}).
  - discriminate.
  - discriminate.
  - repeat constructor; discriminate.
  - vm_compute. reflexivity.
  - vm_compute. reflexivity.
  - reflexivity.
  - vm_compute. reflexivity.
Defined.

(** X9.  The activity shown for a monitor.  Whenever an iteration
    writes [last_activity] into the entry of the registry, the value written
    is the [last_id] the loop goes on with, and the iteration has saved the
    state. *)
Theorem last_activity_is_last_id (f : fetch) (l : loop) (v : option string) :
  Monitor.last_activity_written true f = Some v ->
  let r := Monitor.tick f l in
  last_id (fst r) = v /\ In (Saved (state (fst r))) (snd r).
Proof.
  unfold Monitor.last_activity_written.
  open_monitor_tick f resp; try discriminate.
  destruct (Monitor.extract_activity (text resp)) as [e|ex]; cbn;
    [|discriminate].
  intros [= <-].
  unfold changed_reason; cbn. repeat atom; cbn; (split; [|by auto]);
    try reflexivity.
  1-3: symmetry; by apply py_eq_true.
  by destruct (last_id l).
Qed.

Lemma last_activity_is_last_id_witness :
  let r := Monitor.tick page_open (init empty_state) in
  last_id (fst r) = Some "7" /\ In (Saved (state (fst r))) (snd r).
Proof.
  apply (last_activity_is_last_id page_open (init empty_state) (Some "7")).
  vm_compute. reflexivity.
Defined.

(** X10.  The phone loop re-arms.  With the id equal to [last_id]
    throughout, fresh pages that show the activity accepting, locked and
    accepting again give two alerts for a newly accepting activity: the
    locked tick is silent and clears the latch. *)
Theorem phone_rearms_after_lock (l : loop) (a : string) (r1 r2 r3 : response)
    (t1 t2 t3 : option string) :
  a <> EmptyString -> last_id l = Some a ->
  alerted_accepting_for_id (state l) <> Some a ->
  Forall (fun r => status_code r <> 304%Z /\ ok r = true) [r1; r2; r3] ->
  Phone.extract_activity (text r1) = Ok (seen a true t1) ->
  Phone.extract_activity (text r2) = Ok (seen a false t2) ->
  Phone.extract_activity (text r3) = Ok (seen a true t3) ->
  let s1 := Phone.tick (Responds r1) l in
  let s2 := Phone.tick (Responds r2) (fst s1) in
  let s3 := Phone.tick (Responds r3) (fst s2) in
  map why (alerts (snd s1)) = [NowAccepting]
  /\ alerted_accepting_for_id (state (fst s1)) = Some a
  /\ alerts (snd s2) = []
  /\ alerted_accepting_for_id (state (fst s2)) = None
  /\ last_id (fst s2) = Some a
  /\ map why (alerts (snd s3)) = [NowAccepting].
Proof.
  intros Ha Hl Hal Hfresh H1 H2 H3.
  apply Forall_cons in Hfresh as [[F1 O1] Hfresh].
  apply Forall_cons in Hfresh as [[F2 O2] Hfresh].
  apply Forall_cons in Hfresh as [[F3 O3] _].
  cbv zeta.
  rewrite (phone_tick_fresh r1 l _ F1 O1 H1).
  rewrite (phone_tick_fresh r2 _ _ F2 O2 H2).
  rewrite (phone_tick_fresh r3 _ _ F3 O3 H3).
  apply truthy_Some in Ha. apply py_eq_false in Hal.
  unfold_loop. unfold changed_reason. cbn. repeat atom. auto 7.
Qed.

Lemma phone_rearms_after_lock_witness :
  let s1 := Phone.tick page_open (watching "7") in
  let s2 := Phone.tick page_locked (fst s1) in
  let s3 := Phone.tick page_open (fst s2) in
  map why (alerts (snd s1)) = [NowAccepting]
  /\ alerted_accepting_for_id (state (fst s1)) = Some "7"
  /\ alerts (snd s2) = []
  /\ alerted_accepting_for_id (state (fst s2)) = None
  /\ last_id (fst s2) = Some "7"
  /\ map why (alerts (snd s3)) = [NowAccepting].
Proof.
  apply (phone_rearms_after_lock (watching "7") "7" (answer html_open)
           (answer html_locked) (answer html_open) None None None).
  - discriminate.
  - reflexivity.
  - discriminate.
  - repeat constructor; discriminate.
  - vm_compute. reflexivity.
  - vm_compute. reflexivity.
  - vm_compute. reflexivity.
Defined.

(** X11.  The phone loop, down and up.  A new activity, then a page
    without activity, then the same id again: the first and the third tick
    alert for a new activity, and the tick in between is silent and clears
    [last_id], [state["last_seen_id"]] and the latch. *)
Theorem phone_realerts_after_down (l : loop) (a : string) (r1 r2 r3 : response)
    (acc1 acc3 : bool) (t1 t3 : option string) (gone : extraction) :
  a <> EmptyString -> last_id l <> Some a ->
  Forall (fun r => status_code r <> 304%Z /\ ok r = true) [r1; r2; r3] ->
  Phone.extract_activity (text r1) = Ok (seen a acc1 t1) ->
  Phone.extract_activity (text r2) = Ok gone ->
  activity_id gone = None ->
  Phone.extract_activity (text r3) = Ok (seen a acc3 t3) ->
  let s1 := Phone.tick (Responds r1) l in
  let s2 := Phone.tick (Responds r2) (fst s1) in
  let s3 := Phone.tick (Responds r3) (fst s2) in
  map why (alerts (snd s1)) = [NewActivityLive]
  /\ alerts (snd s2) = []
  /\ last_id (fst s2) = None
  /\ last_seen_id (state (fst s2)) = None
  /\ alerted_accepting_for_id (state (fst s2)) = None
  /\ map why (alerts (snd s3)) = [NewActivityLive].
Proof.
  intros Ha Hl Hfresh H1 H2 Hg H3.
  apply Forall_cons in Hfresh as [[F1 O1] Hfresh].
  apply Forall_cons in Hfresh as [[F2 O2] Hfresh].
  apply Forall_cons in Hfresh as [[F3 O3] _].
  cbv zeta.
  rewrite (phone_tick_fresh r1 l _ F1 O1 H1).
  rewrite (phone_tick_fresh r2 _ _ F2 O2 H2).
  rewrite (phone_tick_fresh r3 _ _ F3 O3 H3).
  apply truthy_Some in Ha.
  assert (py_eq (Some a) (last_id l) = false) as Hne.
  { apply py_eq_false. congruence. }
  unfold_loop. unfold changed_reason. rewrite Hg. cbn. repeat atom.
  destruct acc1, acc3; cbn; repeat atom; repeat split; reflexivity.
Qed.

Lemma phone_realerts_after_down_witness :
  let s1 := Phone.tick page_open (init empty_state) in
  let s2 := Phone.tick page_idle (fst s1) in
  let s3 := Phone.tick page_open (fst s2) in
  map why (alerts (snd s1)) = [NewActivityLive]
  /\ alerts (snd s2) = []
  /\ last_id (fst s2) = None
  /\ last_seen_id (state (fst s2)) = None
  /\ alerted_accepting_for_id (state (fst s2)) = None
  /\ map why (alerts (snd s3)) = [NewActivityLive].
Proof.
  apply (phone_realerts_after_down (init empty_state) "7" (answer html_open)
           (answer html_idle) (answer html_open) true true None None
           {| activity_id := None; accepting := false; title := None |}).
  - discriminate.
  - discriminate.
  - repeat constructor; discriminate.
  - vm_compute. reflexivity.
  - vm_compute. reflexivity.
  - reflexivity.
  - vm_compute. reflexivity.
Defined.

(** ** The state file and the registry of the web application *)

Lemma monitor_tick_events f l :
  snd (Monitor.tick f l) = []
  \/ exists evs, snd (Monitor.tick f l) = evs ++ [Saved (state (fst (Monitor.tick f l)))]
                 /\ forall st, ~ In (Saved st) evs.
Proof.
  open_monitor_tick f resp; try by left.
  destruct (Monitor.extract_activity (text resp)) as [e|ex]; cbn; [|by left].
  right. destruct (changed_reason e _); cbn; repeat atom;
    first [ by (exists []; split; [reflexivity | intros st []])
          | eexists [_]; split; [reflexivity | intros st [[=]|[]]] ].
Qed.

Lemma file_after_app key others evs1 evs2 file :
  Monitor.file_after key others (evs1 ++ evs2) file
  = Monitor.file_after key others evs2 (Monitor.file_after key others evs1 file).
Proof.
  revert file. induction evs1 as [|[a|st] evs1 IH]; intros file; cbn; auto.
Qed.

(** X12.  Saving the state of one monitor rewrites the state of all.
    Each thread loads the state file once, at its start, and [save_state]
    writes its whole dict: after any tick of a monitor that saves, the file
    holds the state of that monitor under its key, and under the key of any
    other monitor what the file held when the thread started, whatever the
    other monitor has written since. *)
Theorem save_overwrites_other_monitors (key other : string)
    (file0 file1 : gmap string watch_state) (fs : list fetch) (f : fetch)
    (st : watch_state) :
  key <> other ->
  let l0 := fst (Monitor.open_store key file0) in
  let others := snd (Monitor.open_store key file0) in
  let r := Monitor.tick f (fst (run_loop Monitor.tick fs l0)) in
  In (Saved st) (snd r) ->
  let file2 := Monitor.file_after key others (snd r) file1 in
  file2 !! other = file0 !! other
  /\ file2 !! key = Some st
  /\ init st = fst r.
Proof.
  intros Hne l0 others r Hin file2.
  assert (init st = fst r) as Hresume.
  { pose proof (monitor_saved_is_final _ _ _ Hin) as [-> Htok].
    apply init_state_of; [|done]. apply monitor_tick_mirror.
    by apply (run_loop_invariant Monitor.tick
                (fun l => last_id l = last_seen_id (state l))
                monitor_tick_mirror). }
  pose proof (monitor_saved_is_final _ _ _ Hin) as [Hst _].
  destruct (monitor_tick_events f (fst (run_loop Monitor.tick fs l0)))
    as [Hnil | (evs & Hevs & Hnone)]; fold r in Hnil || fold r in Hevs.
  { rewrite Hnil in Hin. destruct Hin. }
  assert (file2 = Monitor.written key others st) as ->.
  { unfold file2. rewrite Hevs, file_after_app. cbn. by rewrite Hst. }
  unfold Monitor.written, others, Monitor.open_store. cbn.
  rewrite lookup_insert_ne, lookup_delete_ne, lookup_insert_eq by done.
  done.
Qed.

Lemma save_overwrites_other_monitors_witness :
  let file0 : gmap string watch_state := {[ "monitor_b" := state_of_b ]} in
  let file1 : gmap string watch_state := {[ "monitor_b" := empty_state ]} in
  let l0 := fst (Monitor.open_store "monitor_a" file0) in
  let others := snd (Monitor.open_store "monitor_a" file0) in
  let r := Monitor.tick page_open (fst (run_loop Monitor.tick [] l0)) in
  let file2 := Monitor.file_after "monitor_a" others (snd r) file1 in
  file2 !! "monitor_b" = file0 !! "monitor_b"
  /\ file2 !! "monitor_a" = Some (state (fst r))
  /\ init (state (fst r)) = fst r.
Proof.
  intros file0 file1 l0 others r file2.
  apply (save_overwrites_other_monitors "monitor_a" "monitor_b" file0 file1
           [] page_open (state (fst r))).
  - discriminate.
  - vm_compute. auto.
Defined.

Lemma is_empty_false s : Web.is_empty s = false -> s <> EmptyString.
Proof. unfold Web.is_empty. intros H ->. discriminate. Qed.

Lemma apply_op_well_keyed o reg : well_keyed reg -> well_keyed (apply_op o reg).
Proof.
  intros Hreg. destruct o as [now data | monitor_id | configured t | monitor_id];
    cbn.
  - unfold Web.start_monitor.
    set (url := strip _). set (phone := strip _).
    destruct (Web.is_empty url) eqn:Hu; [exact Hreg|].
    destruct (Web.is_empty phone) eqn:Hp; [exact Hreg|]. cbn [orb].
    destruct (String.prefix "http" url) eqn:Hh; [|exact Hreg]. cbn [negb].
    destruct (Web.is_running _ reg); [exact Hreg|]. cbn.
    intros id m. rewrite lookup_insert. case_decide as Hid.
    + intros [= <-]. cbn. subst id. repeat split; auto.
      by apply is_empty_false.
    + apply Hreg.
  - unfold Web.stop_monitor.
    destruct (reg !! monitor_id) as [m0|] eqn:Hm; [|exact Hreg].
    cbn. intros id m. rewrite lookup_delete. case_decide; [done | apply Hreg].
  - unfold Web.monitor_poll_start.
    destruct (reg !! Web.thread_monitor_id t) as [m0|] eqn:Hm; [|exact Hreg].
    destruct (Hreg _ _ Hm) as (Hk & Hh & Hp & Hs).
    destruct configured; cbn; intros id m; rewrite lookup_insert;
      (case_decide as Hid; [|apply Hreg]); intros [= <-]; cbn; subst id;
      repeat split; auto.
  - unfold Monitor.monitor_poll_exit. intros id m.
    rewrite lookup_delete. case_decide; [done | apply Hreg].
Qed.

(** X13.  The registry is well keyed.  After any sequence of starts,
    stops, threads reaching their loop and threads leaving it, from the
    empty registry, every entry is filed under the id computed from its own
    URL and phone number, its URL starts with http, its phone number is not
    empty, and its status is starting, running or error. *)
Theorem registry_well_keyed (ops : list registry_op) :
  well_keyed (apply_ops ops ∅).
Proof.
  assert (forall reg, well_keyed reg -> well_keyed (apply_ops ops reg)) as H.
  { induction ops as [|o ops IH]; intros reg Hreg; cbn; [done|].
    by apply IH, apply_op_well_keyed. }
  apply H. intros id m Hm. by rewrite lookup_empty in Hm.
Qed.

Lemma registry_well_keyed_witness :
  exists m,
    apply_ops [OpStart 0 sample_request] ∅ !! "c01c45674e58" = Some m
    /\ "c01c45674e58"
       = Web.make_monitor_id (Web.poll_url m) (Web.phone_number m)
    /\ String.prefix "http" (Web.poll_url m) = true.
Proof.
  eexists. split; [vm_compute; reflexivity|].
  destruct (registry_well_keyed [OpStart 0 sample_request] "c01c45674e58" _
              ltac:(vm_compute; reflexivity)) as (Hk & Hh & _).
  split; [exact Hk | exact Hh].
Defined.

Lemma make_monitor_id_concat url1 phone1 url2 phone2 :
  (url1 ++ phone1 = url2 ++ phone2)%string ->
  Web.make_monitor_id url1 phone1 = Web.make_monitor_id url2 phone2.
Proof. unfold Web.make_monitor_id. by intros ->. Qed.

(** X14.  The id of a monitor depends on the concatenation of the URL and
    the phone number only.  A start for a pair whose concatenation equals
    that of a running monitor is refused as a duplicate, though the URL and
    the phone number may both differ. *)
Theorem start_rejected_on_equal_concatenation (data1 data2 : Web.start_request)
    (now : Z) (active_monitors : gmap string Web.monitor) :
  let url1 := strip (default EmptyString (Web.pollUrl data1)) in
  let phone1 := strip (default EmptyString (Web.phoneNumber data1)) in
  let url2 := strip (default EmptyString (Web.pollUrl data2)) in
  let phone2 := strip (default EmptyString (Web.phoneNumber data2)) in
  Web.is_empty url2 = false -> Web.is_empty phone2 = false ->
  String.prefix "http" url2 = true ->
  (url1 ++ phone1 = url2 ++ phone2)%string ->
  Web.is_running (Web.make_monitor_id url1 phone1) active_monitors = true ->
  Web.start_monitor now data2 active_monitors
  = (Web.Failure Web.already_exists 400, active_monitors, None).
Proof.
  intros url1 phone1 url2 phone2 Hu Hp Hh Hcat Hrun.
  unfold Web.start_monitor. fold url2 phone2.
  rewrite Hu, Hp, Hh. cbn [orb negb].
  rewrite <- (make_monitor_id_concat url1 phone1 url2 phone2 Hcat), Hrun.
  reflexivity.
Qed.

Lemma start_rejected_on_equal_concatenation_witness :
  let reg : gmap string Web.monitor :=
    {[ Web.make_monitor_id "http://pe.app/a1" "23" :=
         {| Web.poll_url := "http://pe.app/a1"; Web.phone_number := "23";
            Web.status := "running"; Web.started_at := 0;
            Web.error := None |} ]} in
  Web.start_monitor 1 request_a reg
  = (Web.Failure Web.already_exists 400, reg, None).
Proof.
  intros reg.
  apply (start_rejected_on_equal_concatenation request_a1 request_a 1 reg);
    vm_compute; reflexivity.
Defined.

(** X15.  A stop that overtakes the thread.  When a monitor is stopped
    after its start and before its thread has reached the loop, the
    registry is as it was without the id, and the first statement of the
    thread that touches the entry raises [KeyError]. *)
Theorem stop_before_thread_start (data : Web.start_request) (now : Z)
    (configured : bool) (active_monitors : gmap string Web.monitor) :
  let url := strip (default EmptyString (Web.pollUrl data)) in
  let phone := strip (default EmptyString (Web.phoneNumber data)) in
  let id := Web.make_monitor_id url phone in
  Web.is_empty url = false -> Web.is_empty phone = false ->
  String.prefix "http" url = true ->
  Web.is_running id active_monitors = false ->
  exists reg1 t,
    Web.start_monitor now data active_monitors
    = (Web.Success (Some id), reg1, Some t)
    /\ Web.stop_monitor id reg1 = (Web.Success None, delete id active_monitors)
    /\ Web.monitor_poll_start configured t (delete id active_monitors)
       = Raise KeyError.
Proof.
  intros url phone id Hu Hp Hh Hfree.
  unfold Web.start_monitor. fold url phone id.
  rewrite Hu, Hp, Hh. cbn [orb negb]. rewrite Hfree.
  eexists _, _. split; [reflexivity|]. split.
  - unfold Web.stop_monitor. rewrite lookup_insert_eq.
    by rewrite delete_insert_eq.
  - unfold Web.monitor_poll_start. cbn. by rewrite lookup_delete_eq.
Qed.

Lemma stop_before_thread_start_witness :
  exists reg1 t,
    Web.start_monitor 0 sample_request ∅
    = (Web.Success (Some "c01c45674e58"), reg1, Some t)
    /\ Web.stop_monitor "c01c45674e58" reg1
       = (Web.Success None, delete "c01c45674e58" ∅)
    /\ Web.monitor_poll_start true t (delete "c01c45674e58" ∅)
       = Raise KeyError.
Proof.
  apply (stop_before_thread_start sample_request 0 true ∅);
    vm_compute; reflexivity.
Defined.

(** X16.  Two starts before the loop.  A start is refused only while the
    entry is running: a second start for the same pair that arrives while
    the first thread has not reached its loop is accepted, starts a second
    thread for the same id and overwrites the entry; both threads then
    reach their loop. *)
Theorem double_start_before_running (data : Web.start_request) (now1 now2 : Z)
    (active_monitors : gmap string Web.monitor) :
  let url := strip (default EmptyString (Web.pollUrl data)) in
  let phone := strip (default EmptyString (Web.phoneNumber data)) in
  let id := Web.make_monitor_id url phone in
  Web.is_empty url = false -> Web.is_empty phone = false ->
  String.prefix "http" url = true ->
  Web.is_running id active_monitors = false ->
  exists reg1 reg2 t,
    Web.start_monitor now1 data active_monitors
    = (Web.Success (Some id), reg1, Some t)
    /\ Web.start_monitor now2 data reg1
       = (Web.Success (Some id), reg2, Some t)
    /\ dom reg2 = dom reg1
    /\ Web.started_at <$> reg2 !! id = Some now2
    /\ forall reg3, Web.monitor_poll_start true t reg2 = Ok reg3 ->
         Web.monitor_poll_start true t reg3 = Ok reg3.
Proof.
  intros url phone id Hu Hp Hh Hfree.
  unfold Web.start_monitor. fold url phone id.
  rewrite Hu, Hp, Hh. cbn [orb negb]. rewrite Hfree.
  eexists _, _, _. split; [reflexivity|].
  assert (Web.is_running id (<[id := {| Web.poll_url := url;
             Web.phone_number := phone; Web.status := "starting";
             Web.started_at := now1; Web.error := None |}]> active_monitors)
          = false) as ->.
  { unfold Web.is_running. by rewrite lookup_insert_eq. }
  split; [reflexivity|]. split; [|split].
  - rewrite insert_insert_eq. by rewrite !dom_insert_L.
  - by rewrite lookup_insert_eq.
  - intros reg3. unfold Web.monitor_poll_start. cbn.
    rewrite !lookup_insert_eq. cbn. intros [= <-].
    rewrite lookup_insert_eq. cbn. by rewrite insert_insert_eq.
Qed.

Lemma double_start_before_running_witness :
  exists reg1 reg2 t,
    Web.start_monitor 0 sample_request ∅
    = (Web.Success (Some "c01c45674e58"), reg1, Some t)
    /\ Web.start_monitor 5 sample_request reg1
       = (Web.Success (Some "c01c45674e58"), reg2, Some t)
    /\ dom reg2 = dom reg1
    /\ Web.started_at <$> reg2 !! "c01c45674e58" = Some 5%Z.
Proof.
  destruct (double_start_before_running sample_request 0 5 ∅)
    as (reg1 & reg2 & t & H1 & H2 & Hdom & Hat & _);
    [vm_compute; reflexivity ..|].
  exists reg1, reg2, t.
  split; [exact H1 | split; [exact H2 | split; [exact Hdom | exact Hat]]].
Defined.

(** X17.  A stopped monitor that is started again.  The thread of the
    stopped monitor is still in its loop; after the new start the entry is
    starting, so the condition of that loop fails, and the old thread on
    leaving removes the new entry: the new thread then raises [KeyError].
    If the new thread reaches its loop first, the condition of the old loop
    holds again. *)
Theorem stale_thread_after_restart (data : Web.start_request) (now : Z)
    (configured : bool) (active_monitors : gmap string Web.monitor) :
  let url := strip (default EmptyString (Web.pollUrl data)) in
  let phone := strip (default EmptyString (Web.phoneNumber data)) in
  let id := Web.make_monitor_id url phone in
  Web.is_empty url = false -> Web.is_empty phone = false ->
  String.prefix "http" url = true ->
  Web.is_running id active_monitors = true ->
  exists reg1 reg2 t,
    Web.stop_monitor id active_monitors = (Web.Success None, reg1)
    /\ Web.start_monitor now data reg1 = (Web.Success (Some id), reg2, Some t)
    /\ Web.is_running id reg2 = false
    /\ Monitor.monitor_poll_exit id reg2 = reg1
    /\ reg1 !! id = None
    /\ Web.monitor_poll_start configured t (Monitor.monitor_poll_exit id reg2)
       = Raise KeyError
    /\ (forall reg3, Web.monitor_poll_start true t reg2 = Ok reg3 ->
          Web.is_running id reg3 = true).
Proof.
  intros url phone id Hu Hp Hh Hrun.
  unfold Web.is_running in Hrun.
  destruct (active_monitors !! id) as [m|] eqn:Hm; [|discriminate].
  exists (delete id active_monitors).
  unfold Web.stop_monitor, Web.start_monitor. fold url phone id.
  rewrite Hm, Hu, Hp, Hh. cbn [orb negb].
  assert (Web.is_running id (delete id active_monitors) = false) as ->.
  { unfold Web.is_running. by rewrite lookup_delete_eq. }
  eexists _, _. split; [reflexivity|]. split; [reflexivity|].
  unfold Monitor.monitor_poll_exit. rewrite delete_insert_eq, delete_delete_eq.
  repeat split.
  - unfold Web.is_running. by rewrite lookup_insert_eq.
  - apply lookup_delete_eq.
  - unfold Web.monitor_poll_start. cbn. by rewrite lookup_delete_eq.
  - intros reg3. unfold Web.monitor_poll_start. cbn.
    rewrite lookup_insert_eq. cbn. intros [= <-].
    unfold Web.is_running. by rewrite lookup_insert_eq.
Qed.

Lemma stale_thread_after_restart_witness :
  exists reg1 reg2 t,
    Web.stop_monitor "c01c45674e58" running_sample = (Web.Success None, reg1)
    /\ Web.start_monitor 9 sample_request reg1
       = (Web.Success (Some "c01c45674e58"), reg2, Some t)
    /\ Web.is_running "c01c45674e58" reg2 = false
    /\ Monitor.monitor_poll_exit "c01c45674e58" reg2 = reg1
    /\ reg1 !! "c01c45674e58" = None
    /\ Web.monitor_poll_start true t
         (Monitor.monitor_poll_exit "c01c45674e58" reg2)
       = Raise KeyError.
Proof.
  destruct (stale_thread_after_restart sample_request 9 true running_sample)
    as (reg1 & reg2 & t & H1 & H2 & H3 & H4 & H5 & H6 & _);
    [vm_compute; reflexivity ..|].
  exists reg1, reg2, t.
  split; [exact H1 | split; [exact H2 | split; [exact H3 |]]].
  split; [exact H4 | split; [exact H5 | exact H6]].
Defined.

(** ** The settings and the state at startup *)

Lemma split_on_nonempty sep s : split_on sep s <> [].
Proof.
  destruct s as [|c s]; cbn; [done|].
  destruct (Ascii.eqb c sep); [done|]. by destruct (split_on sep s).
Qed.

Lemma split_on_length sep s :
  length (split_on sep s)
  = S (length (List.filter (fun c => Ascii.eqb c sep) s)).
Proof.
  induction s as [|c s IH]; cbn; [done|].
  destruct (Ascii.eqb c sep); cbn; [by rewrite IH|].
  destruct (split_on sep s); cbn in *; [done | lia].
Qed.

Lemma split_on_no_sep sep s :
  Forall (fun piece => sep ∉ piece) (split_on sep s).
Proof.
  induction s as [|c s IH]; cbn.
  - constructor; [apply not_elem_of_nil | constructor].
  - destruct (Ascii.eqb_spec c sep) as [->|Hne].
    + constructor; [apply not_elem_of_nil | done].
    + destruct (split_on sep s) as [|piece pieces].
      * constructor; [|done]. intros Hin. apply list_elem_of_singleton in Hin.
        congruence.
      * apply Forall_cons in IH as [Hp Hps]. constructor; [|done].
        intros Hin. apply elem_of_cons in Hin as [?|?]; [congruence | done].
Qed.

Lemma lstrip_fixed s :
  match s with c :: _ => is_space c = false | [] => True end -> lstrip s = s.
Proof. destruct s as [|c s]; cbn; [done|]. by intros ->. Qed.

Lemma lstrip_head s :
  match lstrip s with c :: _ => is_space c = false | [] => True end.
Proof.
  induction s as [|c s IH]; cbn; [done|].
  destruct (is_space c) eqn:Hc; [exact IH | exact Hc].
Qed.

Lemma lstrip_suffix s : exists pre, s = pre ++ lstrip s.
Proof.
  induction s as [|c s [pre IH]]; cbn; [by exists []|].
  destruct (is_space c); [|by exists []].
  exists (c :: pre). cbn. by rewrite <- IH.
Qed.

Lemma lstrip_no_sep (sep : ascii) s : sep ∉ s -> sep ∉ lstrip s.
Proof.
  destruct (lstrip_suffix s) as [pre Hs]. intros Hn Hin. apply Hn.
  rewrite Hs. apply elem_of_app. by right.
Qed.

Lemma strip_list_idempotent s : strip_list (strip_list s) = strip_list s.
Proof.
  unfold strip_list. set (u := lstrip s).
  pose proof (lstrip_head s) as Hu. fold u in Hu.
  set (v := lstrip (rev u)).
  pose proof (lstrip_head (rev u)) as Hv. fold v in Hv.
  destruct (lstrip_suffix (rev u)) as [pre Hpre]. fold v in Hpre.
  assert (lstrip (rev v) = rev v) as ->.
  { apply lstrip_fixed. apply (f_equal (@rev ascii)) in Hpre.
    rewrite rev_involutive, rev_app_distr in Hpre.
    destruct (rev v) as [|c t] eqn:Hrv; [done|].
    rewrite Hpre in Hu. exact Hu. }
  rewrite rev_involutive. by rewrite (lstrip_fixed v Hv).
Qed.

Lemma strip_list_no_sep (sep : ascii) s : sep ∉ s -> sep ∉ strip_list s.
Proof.
  intros Hn. unfold strip_list. rewrite list_elem_of_In, <- in_rev, <- list_elem_of_In.
  apply lstrip_no_sep. rewrite list_elem_of_In, <- in_rev, <- list_elem_of_In.
  by apply lstrip_no_sep.
Qed.

Lemma truthy_forallb (xs : list (option string)) :
  forallb truthy xs = true <-> Forall (fun x => truthy x = true) xs.
Proof.
  induction xs as [|x xs IH]; cbn; [by split|].
  rewrite andb_true_iff, Forall_cons, IH. done.
Qed.

(** X18.  The phone numbers of the setting.  A setting that is not
    empty gives one number more than it has commas, each free of commas and
    of white space at its ends, and the check at startup passes on it as soon
    as the four other settings are present: the numbers themselves are not
    looked at, and may be empty. *)
Theorem phone_numbers_of_setting (s : string) :
  s <> EmptyString ->
  let ns := phone_numbers (Some s) in
  length ns
  = S (length (List.filter (fun c => Ascii.eqb c ","%char)
                 (list_ascii_of_string s)))
  /\ Forall (fun n => ((","%char) ∉ list_ascii_of_string n) /\ strip n = n) ns
  /\ forall url sid token from_number,
       settings_missing url sid token from_number (Some s)
       = negb (truthy url && truthy sid && truthy token && truthy from_number).
Proof.
  intros Hs. apply truthy_Some in Hs. unfold settings_missing, phone_numbers.
  rewrite Hs. repeat split.
  - by rewrite length_map, split_on_length.
  - apply Forall_map. eapply Forall_impl; [apply split_on_no_sep|].
    intros piece Hp. cbn. rewrite list_ascii_of_string_of_list_ascii.
    split; [by apply strip_list_no_sep|].
    unfold strip. rewrite list_ascii_of_string_of_list_ascii.
    by rewrite strip_list_idempotent.
  - intros url sid token from_number.
    pose proof (split_on_nonempty ","%char (list_ascii_of_string s)) as Hne.
    destruct (split_on _ _); [done|]. cbn. by rewrite orb_false_r, andb_true_r, <- !andb_assoc.
Qed.

Lemma phone_numbers_of_setting_witness :
  length (phone_numbers (Some "+15551234567, +15557654321,")) = 3
  /\ settings_missing (Some "https://pe.app/x") (Some "AC1") (Some "tok")
       (Some "+15550000000") (Some ",")
     = false.
Proof.
  split.
  - destruct (phone_numbers_of_setting "+15551234567, +15557654321,")
      as (Hlen & _); [discriminate|]. exact Hlen.
  - destruct (phone_numbers_of_setting ",") as (_ & _ & Hcheck);
      [discriminate|]. apply Hcheck.
Defined.

(** X19.  The start of [main].  Reading the state raises exactly when
    the state file holds a JSON value that is not an object, and then
    [AttributeError]; a missing or unreadable file gives the empty state,
    with the three values read as [None]. *)
Theorem startup_raises_iff (f : state_file) :
  (startup f = Raise AttributeError
   <-> exists v, f = Holds v /\ is_dict v = false)
  /\ (forall e, startup f = Raise e -> e = AttributeError)
  /\ ((f = Absent \/ exists e, f = Unloadable e) ->
      startup f = Ok (empty_dict, JNull, JNull, JNull)).
Proof.
  repeat split.
  - destruct f as [|e|v]; cbn; try discriminate.
    destruct v; cbn; try discriminate; intros _; eexists; by split.
  - intros (v & -> & Hv). by destruct v.
  - intros e. destruct f as [|e0|v]; cbn; try discriminate.
    destruct v; cbn; try discriminate; by intros [= <-].
  - intros [-> | [e ->]]; reflexivity.
Qed.

Lemma startup_raises_iff_witness :
  startup (Holds (JString "x")) = Raise AttributeError
  /\ startup (Unloadable ValueError) = Ok (empty_dict, JNull, JNull, JNull).
Proof.
  destruct (startup_raises_iff (Holds (JString "x"))) as ([_ Hback] & _).
  destruct (startup_raises_iff (Unloadable ValueError)) as (_ & _ & Hfresh).
  split.
  - apply Hback. by eexists.
  - apply Hfresh. right. by eexists.
Defined.

(** ** More on the extraction *)

Lemma monitor_id_truthy html :
  truthy (find_id Monitor.ID_PATTERNS html)
  = is_some (find_id Monitor.ID_PATTERNS html).
Proof. by apply find_id_truthy. Qed.

(** X20.  The activity id that the extractions of the phone script, of
    the Telegram script and of the web application return is never the
    empty string: for it, to be present is to be truthy. *)
Theorem extracted_id_is_not_empty (html : string) (e : extraction) :
  Phone.extract_activity html = Ok e
  \/ Telegram.extract_activity html = Ok e
  \/ Monitor.extract_activity html = Ok e ->
  activity_id e <> Some EmptyString
  /\ truthy (activity_id e) = is_some (activity_id e).
Proof.
  assert (forall x, truthy x = is_some x -> x <> Some EmptyString) as Hne.
  { intros [s|] Hx; [|done]. intros [= ->]. discriminate. }
  intros He.
  assert (truthy (activity_id e) = is_some (activity_id e)) as Ht; [|auto].
  destruct He as [He | [He | He]].
  - by apply (phone_extracted_id_truthy html).
  - by apply (telegram_extracted_id_truthy html).
  - rewrite monitor_extract_eq in He. injection He as <-.
    destruct (shows _ _); [reflexivity | apply monitor_id_truthy].
Qed.

Lemma extracted_id_is_not_empty_witness :
  activity_id (seen "7" true None) <> Some EmptyString
  /\ truthy (activity_id (seen "7" true None))
     = is_some (activity_id (seen "7" true None)).
Proof.
  apply (extracted_id_is_not_empty html_open (seen "7" true None)).
  left. vm_compute. reflexivity.
Defined.

(** X21.  The waiting text hides the activity.  A fresh page in which
    the text waiting occurs anywhere, in any case, is an empty extraction
    for the web application and for the Telegram script, whatever else the
    page shows: the tick is silent and leaves [last_id] unset, and when an
    activity was known it is forgotten. *)
Theorem waiting_page_reads_as_down (resp : response) (d : bool) (l : loop) :
  status_code resp <> 304%Z -> ok resp = true ->
  contains_ci "waiting" (text resp) ->
  let r := Monitor.tick (Responds resp) l in
  let t := Telegram.tick d (Responds resp) l in
  Monitor.extract_activity (text resp) = Ok inactive
  /\ Telegram.extract_activity (text resp) = Ok inactive
  /\ alerts (snd r) = [] /\ last_id (fst r) = None
  /\ alerts (snd t) = [] /\ last_id (fst t) = None
  /\ (is_some (last_id l) = true ->
      last_seen_id (state (fst r)) = None
      /\ alerted_accepting_for_id (state (fst r)) = None
      /\ last_seen_id (state (fst t)) = None).
Proof.
  intros H304 Hok Hw. apply waiting_hint_spec in Hw.
  assert (Monitor.extract_activity (text resp) = Ok inactive) as Hm.
  { by rewrite monitor_extract_eq, Hw. }
  assert (Telegram.extract_activity (text resp) = Ok inactive) as Ht.
  { by rewrite telegram_extract_eq, Hw. }
  cbv zeta.
  rewrite (monitor_tick_fresh _ _ _ H304 Hok Hm).
  rewrite (telegram_tick_fresh _ _ _ _ H304 Hok Ht).
  split; [done|]. split; [done|].
  unfold_loop. unfold_monitor. unfold changed_reason, finish. cbn.
  change (truthy None) with false. cbn.
  destruct l as [[a|] e m st]; cbn; repeat split; done.
Qed.

Lemma waiting_page_reads_as_down_witness :
  let resp := answer page_waiting_with_form in
  let r := Monitor.tick (Responds resp) (alerted_on "12") in
  let t := Telegram.tick true (Responds resp) (alerted_on "12") in
  Monitor.extract_activity (text resp) = Ok inactive
  /\ Telegram.extract_activity (text resp) = Ok inactive
  /\ alerts (snd r) = [] /\ last_id (fst r) = None
  /\ alerts (snd t) = [] /\ last_id (fst t) = None.
Proof.
  intros resp r t.
  destruct (waiting_page_reads_as_down resp true (alerted_on "12"))
    as (H1 & H2 & H3 & H4 & H5 & H6 & _).
  - discriminate.
  - reflexivity.
  - exists (list_ascii_of_string
              ("<form action=" ++ qstr "/a/questions/12/responses" ++ ">")),
      (list_ascii_of_string "Waiting"),
      (list_ascii_of_string " room</form>").
    split; reflexivity.
  - repeat split; assumption.
Defined.

(** ** The id of a monitor *)

Lemma hex_digit_in (n : Z) :
  (0 <= n < 16)%Z ->
  In (Web.hex_digit n) (list_ascii_of_string "0123456789abcdef").
Proof.
  intros Hn.
  assert (exists k : nat, n = Z.of_nat k /\ (k < 16)%nat) as (k & -> & Hk).
  { exists (Z.to_nat n). lia. }
  do 16 (destruct k as [|k]; [vm_compute; tauto|]). lia.
Qed.

Lemma byte_digits (x : Z) :
  let b := Z.land x 255 in
  (0 <= b / 16 < 16)%Z /\ (0 <= b mod 16 < 16)%Z.
Proof.
  cbv zeta. change 255%Z with (Z.ones 8). rewrite Z.land_ones by lia.
  pose proof (Z.mod_pos_bound x (2 ^ 8) ltac:(lia)) as Hb.
  split; [|apply Z.mod_pos_bound; lia].
  split; [apply Z.div_pos; lia | apply Z.div_lt_upper_bound; lia].
Qed.

Lemma md5_bytes msg :
  exists a b c d,
    Web.md5 msg
    = Web.le_bytes 4 a ++ Web.le_bytes 4 b ++ Web.le_bytes 4 c
      ++ Web.le_bytes 4 d.
Proof.
  unfold Web.md5. destruct (Web.md5_blocks _ _ _) as [[[a b] c] d].
  by exists a, b, c, d.
Qed.

(** X22.  The id of a monitor is made of twelve characters, each a
    decimal digit or a letter from a to f, for every URL and phone
    number. *)
Theorem monitor_id_is_12_hex (poll_url phone_number : string) :
  let id := Web.make_monitor_id poll_url phone_number in
  String.length id = 12
  /\ Forall (fun c => In c (list_ascii_of_string "0123456789abcdef"))
            (list_ascii_of_string id).
Proof.
  unfold Web.make_monitor_id, Web.md5_hexdigest.
  destruct (md5_bytes (Web.encode (poll_url ++ phone_number)))
    as (a & b & c & d & ->).
  cbn [Web.le_bytes app Web.hex substring String.length list_ascii_of_string].
  split; [reflexivity|].
  repeat (apply Forall_cons; split;
          [apply hex_digit_in; apply byte_digits|]).
  constructor.
Qed.


(** ** What the patterns match *)

Lemma search_list_some r s g :
  search_list r s = Some g ->
  exists pre suf, s = pre ++ suf /\ match_here r suf = Some g.
Proof.
  induction s as [|c s IH]; cbn.
  - destruct (match_here r []) eqn:Hm; [|discriminate].
    intros [= <-]. by exists [], [].
  - destruct (match_here r (c :: s)) eqn:Hm.
    + intros [= <-]. by exists [], (c :: s).
    + intros Hs. destruct (IH Hs) as (pre & suf & -> & Hsuf).
      by exists (c :: pre), suf.
Qed.

Lemma run_lit_inv {A} w s g (k : list ascii -> capture -> option A) x :
  run (Lit w) s g k = Some x ->
  exists mid s', s = mid ++ s'
    /\ map lower mid = map lower (list_ascii_of_string w)
    /\ k s' g = Some x.
Proof.
  cbn. destruct (match_lit w s) as [s'|] eqn:Hl; [|discriminate].
  apply match_lit_spec in Hl as (mid & -> & Hmid). intros Hk.
  by exists mid, s'.
Qed.

Lemma rep_inv_full {A} p lo hi s (k : list ascii -> option A) x :
  rep p lo hi s k = Some x ->
  exists mid s', s = mid ++ s'
    /\ Forall (fun c => p c = true) mid
    /\ lo <= length mid
    /\ (forall h, hi = Some h -> length mid <= h)
    /\ k s' = Some x.
Proof.
  revert lo hi. induction s as [|c s IH]; intros lo hi; cbn.
  - destruct (Nat.eqb_spec lo 0); [|discriminate].
    intros H. exists [], []. repeat split; [done | cbn; lia | cbn; lia | done].
  - assert ((if (lo =? 0)%nat then k (c :: s) else None) = Some x ->
            exists mid s', c :: s = mid ++ s'
              /\ Forall (fun c => p c = true) mid
              /\ lo <= length mid
              /\ (forall h, hi = Some h -> length mid <= h)
              /\ k s' = Some x) as Hstop.
    { destruct (Nat.eqb_spec lo 0); [|discriminate].
      intros H. exists [], (c :: s).
      repeat split; [done | cbn; lia | cbn; lia | done]. }
    destruct (p c) eqn:Hp; cbn [andb]; [|by apply Hstop].
    destruct (can_more hi) eqn:Hmore; [|by apply Hstop].
    destruct (rep p (Nat.pred lo) (Nat.pred <$> hi) s k) as [y|] eqn:Hr;
      [|by apply Hstop].
    intros [= ->]. apply IH in Hr as (mid & s' & -> & Hall & Hlo & Hhi & Hk).
    exists (c :: mid), s'. repeat split; [by constructor | cbn; lia | | done].
    intros h ->. cbn in *. destruct h as [|h]; [discriminate|].
    specialize (Hhi h eq_refl). lia.
Qed.

Lemma run_rep_inv {A} c lo hi s g (k : list ascii -> capture -> option A) x :
  run (Rep c lo hi) s g k = Some x ->
  exists mid s', s = mid ++ s'
    /\ Forall (fun a => in_class c a = true) mid
    /\ lo <= length mid
    /\ (forall h, hi = Some h -> length mid <= h)
    /\ k s' g = Some x.
Proof. cbn. apply rep_inv_full. Qed.

Lemma run_cat {A} a b s g (k : list ascii -> capture -> option A) :
  run (a ∙ b) s g k = run a s g (fun s1 g1 => run b s1 g1 k).
Proof. reflexivity. Qed.

Lemma run_grp {A} a s g (k : list ascii -> capture -> option A) :
  run (Grp a) s g k
  = run a s g (fun s1 _ => k s1 (Some (take (length s - length s1) s))).
Proof. reflexivity. Qed.

Lemma run_alt_is_some {A} a b s g (k : list ascii -> capture -> option A) :
  is_some (run (a ∥ b) s g k) = is_some (run a s g k) || is_some (run b s g k).
Proof. cbn. by destruct (run a s g k). Qed.

Lemma match_lit_contains w s :
  is_some (match_lit w s) = true
  <-> exists mid post, s = mid ++ post
        /\ map lower mid = map lower (list_ascii_of_string w).
Proof.
  destruct (match_lit w s) as [s'|] eqn:Hl; cbn.
  - split; [|done]. intros _. apply match_lit_spec in Hl as (mid & -> & Hm).
    by exists mid, s'.
  - split; [discriminate|]. intros (mid & post & -> & Hm).
    assert (match_lit w (mid ++ post) = Some post) as H; [|congruence].
    apply match_lit_spec. by exists mid.
Qed.

Lemma contains_ci_suffix w html :
  contains_ci w html
  <-> exists pre suf, list_ascii_of_string html = pre ++ suf
        /\ is_some (match_lit w suf) = true.
Proof.
  unfold contains_ci. split.
  - intros (pre & mid & post & Hs & Hm). exists pre, (mid ++ post).
    split; [done|]. apply match_lit_contains. by exists mid, post.
  - intros (pre & suf & Hs & Hm).
    apply match_lit_contains in Hm as (mid & post & -> & Hm).
    by exists pre, mid, post.
Qed.

Lemma shows_spec r html :
  shows r html = true
  <-> exists pre suf, list_ascii_of_string html = pre ++ suf
        /\ is_some (match_here r suf) = true.
Proof.
  unfold shows, search_str. rewrite <- search_list_spec.
  by destruct (search_list r (list_ascii_of_string html)).
Qed.

Lemma run_lit_is_some {A} w s g (k : list ascii -> capture -> option A) :
  (forall s' g', is_some (k s' g') = true) ->
  is_some (run (Lit w) s g k) = is_some (match_lit w s).
Proof.
  intros Hk. cbn [run]. destruct (match_lit w s); [apply Hk | reflexivity].
Qed.

Lemma hints_long_here suf :
  is_some (match_here ACCEPTING_HINTS_long suf)
  = existsb (fun w => is_some (match_lit w suf))
      ["audience submissions"; "responding to the presenter";
       "you may respond"; "accepting responses"; "respond"; "submit";
       "send response"; "vote now"].
Proof.
  unfold match_here, ACCEPTING_HINTS_long.
  rewrite run_grp, !run_alt_is_some.
  rewrite !run_lit_is_some by reflexivity.
  cbn [existsb]. by rewrite orb_false_r.
Qed.

(** X23.  What the accepting hints match: a page shows them exactly when
    one of the eight phrases occurs in its text, anywhere and in any
    case. *)
Theorem accepting_hints_spec (html : string) :
  shows ACCEPTING_HINTS_long html = true
  <-> Exists (fun w => contains_ci w html)
        ["audience submissions"; "responding to the presenter";
         "you may respond"; "accepting responses"; "respond"; "submit";
         "send response"; "vote now"].
Proof.
  rewrite shows_spec. split.
  - intros (pre & suf & Hs & Hm). rewrite hints_long_here in Hm.
    apply existsb_exists in Hm as (w & Hin & Hw).
    apply Exists_exists. exists w. split; [by apply list_elem_of_In|].
    apply contains_ci_suffix. by exists pre, suf.
  - intros Hex. apply Exists_exists in Hex as (w & Hin & Hw).
    apply contains_ci_suffix in Hw as (pre & suf & Hs & Hm).
    exists pre, suf. split; [done|]. rewrite hints_long_here.
    apply existsb_exists. exists w. split; [by apply list_elem_of_In | done].
Qed.

Lemma accepting_hints_spec_witness :
  shows ACCEPTING_HINTS_long "<p>You cannot RESPOND yet</p>" = true.
Proof.
  apply (accepting_hints_spec "<p>You cannot RESPOND yet</p>").
  do 4 apply Exists_cons_tl. apply Exists_cons_hd.
  exists (list_ascii_of_string "<p>You cannot "),
    (list_ascii_of_string "RESPOND"), (list_ascii_of_string " yet</p>").
  split; reflexivity.
Defined.

Lemma take_consumed (mid s1 : list ascii) :
  take (length (mid ++ s1) - length s1) (mid ++ s1) = mid.
Proof.
  rewrite length_app.
  replace (length mid + length s1 - length s1) with (length mid) by lia.
  by rewrite take_app_length.
Qed.

(** One step of the inversion of a match: the head of the pattern is a
    literal or a repetition of a class. *)
Ltac invert_head H mid rest Hmid :=
  first
    [ apply run_lit_inv in H as (mid & rest & -> & Hmid & H)
    | apply run_rep_inv in H as (mid & rest & -> & Hmid & _ & _ & H) ];
  cbv beta in H.

(** X24.  The frame to respond is an accepting hint.  A page with a
    frame to respond contains the text /respond, and so the accepting hints
    match it: the last test of the phone extraction, on [respond_present],
    never changes its result. *)
Theorem respond_frame_implies_hint (html : string) :
  shows Phone.pat_respond_frame html = true ->
  shows Phone.ACCEPTING_HINTS html = true
  /\ contains_ci "/respond" html.
Proof.
  intros Hf. apply shows_spec in Hf as (pre & suf & Hs & Hm).
  unfold match_here in Hm.
  destruct (run Phone.pat_respond_frame suf None (fun _ g => Some g))
    as [g|] eqn:Hr; [clear Hm | discriminate].
  unfold Phone.pat_respond_frame in Hr.
  rewrite run_cat in Hr. invert_head Hr m1 s1 H1.
  rewrite run_cat in Hr. invert_head Hr m2 s2 H2.
  rewrite run_cat in Hr. invert_head Hr m3 s3 H3.
  rewrite run_cat in Hr. invert_head Hr m4 s4 H4.
  rewrite run_cat in Hr. invert_head Hr m5 s5 H5.
  invert_head Hr m6 s6 H6.
  destruct m6 as [|c m6]; [discriminate|]. injection H6 as Hc H6.
  split.
  - apply shows_spec.
    exists (pre ++ m1 ++ m2 ++ m3 ++ m4 ++ m5 ++ [c]), (m6 ++ s6).
    split; [rewrite Hs; by rewrite <- !app_assoc|].
    unfold Phone.ACCEPTING_HINTS. rewrite hints_long_here.
    apply existsb_exists. exists "respond". split.
    + cbn. tauto.
    + apply match_lit_contains. by exists m6, s6.
  - exists (pre ++ m1 ++ m2 ++ m3 ++ m4 ++ m5), (c :: m6), s6.
    split; [rewrite Hs; by rewrite <- !app_assoc|].
    cbn. by rewrite Hc, H6.
Qed.

Lemma respond_frame_implies_hint_witness :
  shows Phone.ACCEPTING_HINTS html_frame = true
  /\ contains_ci "/respond" html_frame.
Proof.
  apply (respond_frame_implies_hint html_frame). vm_compute. reflexivity.
Defined.

Lemma heading_capture tag html mo :
  search_str (pat_heading tag) html = Some mo
  \/ search_str pat_any_heading html = Some mo ->
  exists mid, group1 mo = Some (string_of_list_ascii mid)
    /\ length mid <= 200
    /\ Forall (fun c => in_class (CNot [lt]) c = true) mid.
Proof.
  unfold search_str. intros Hs.
  assert (exists r suf g,
            (r = pat_heading tag \/ r = pat_any_heading)
            /\ match_here r suf = Some g
            /\ group1 mo = string_of_list_ascii <$> g) as (r & suf & g & Hr & Hm & Hg).
  { destruct Hs as [Hs | Hs].
    - destruct (search_list (pat_heading tag) _) as [g|] eqn:Hl; [|discriminate].
      injection Hs as <-. apply search_list_some in Hl as (pre & suf & _ & Hm).
      exists (pat_heading tag), suf, g. auto.
    - destruct (search_list pat_any_heading _) as [g|] eqn:Hl; [|discriminate].
      injection Hs as <-. apply search_list_some in Hl as (pre & suf & _ & Hm).
      exists pat_any_heading, suf, g. auto. }
  rewrite Hg. unfold match_here in Hm.
  destruct Hr as [-> | ->]; unfold pat_heading, pat_any_heading in Hm.
  - rewrite run_cat in Hm. invert_head Hm m1 s1 H1.
    rewrite run_cat in Hm. invert_head Hm m2 s2 H2.
    rewrite run_cat in Hm. invert_head Hm m3 s3 H3.
    rewrite run_cat in Hm. invert_head Hm m4 s4 H4.
    rewrite run_cat, run_grp in Hm.
    apply run_rep_inv in Hm as (mid & s' & Hsplit & Hmid & Hlo & Hhi & Hm).
    rewrite Hsplit, take_consumed in Hm.
    rewrite run_cat in Hm. invert_head Hm m5 s5 H5.
    rewrite run_cat in Hm. invert_head Hm m6 s6 H6.
    invert_head Hm m7 s7 H7. injection Hm as <-.
    exists mid. split; [done|]. split; [by apply Hhi | done].
  - rewrite run_cat in Hm. invert_head Hm m1 s1 H1.
    rewrite run_cat in Hm. invert_head Hm m2 s2 H2.
    rewrite run_cat in Hm. invert_head Hm m3 s3 H3.
    rewrite run_cat in Hm. invert_head Hm m4 s4 H4.
    rewrite run_cat, run_grp in Hm.
    apply run_rep_inv in Hm as (mid & s' & Hsplit & Hmid & Hlo & Hhi & Hm).
    rewrite Hsplit, take_consumed in Hm.
    rewrite run_cat in Hm. invert_head Hm m5 s5 H5.
    rewrite run_cat in Hm. invert_head Hm m6 s6 H6.
    invert_head Hm m7 s7 H7. injection Hm as <-.
    exists mid. split; [done|]. split; [by apply Hhi | done].
Qed.

Lemma lstrip_length s : length (lstrip s) <= length s.
Proof.
  induction s as [|c s IH]; cbn; [lia|]. destruct (is_space c); cbn; lia.
Qed.

Lemma strip_list_length s : length (strip_list s) <= length s.
Proof.
  unfold strip_list. rewrite length_rev.
  pose proof (lstrip_length (rev (lstrip s))) as H1.
  pose proof (lstrip_length s) as H2. rewrite length_rev in H1. lia.
Qed.

Lemma sub_spaces_length b s : length (sub_spaces b s) <= length s.
Proof.
  revert b. induction s as [|c s IH]; intros b; cbn; [lia|].
  pose proof (IH true). pose proof (IH false).
  destruct (is_space c); [destruct b|]; cbn; lia.
Qed.

Lemma lstrip_Forall (P : ascii -> Prop) s : Forall P s -> Forall P (lstrip s).
Proof.
  intros H. induction H as [|c s Hc Hs IH]; cbn; [constructor|].
  destruct (is_space c); [exact IH | by constructor].
Qed.

Lemma strip_list_Forall (P : ascii -> Prop) s :
  Forall P s -> Forall P (strip_list s).
Proof.
  intros H. unfold strip_list.
  apply Forall_forall. intros c Hin. apply list_elem_of_In in Hin.
  apply in_rev in Hin. revert c Hin. apply List.Forall_forall.
  apply lstrip_Forall. apply List.Forall_forall. intros c Hin.
  apply in_rev in Hin. revert c Hin. apply List.Forall_forall.
  by apply lstrip_Forall.
Qed.

Lemma sub_spaces_Forall (P : ascii -> Prop) b s :
  P " "%char -> Forall P s -> Forall P (sub_spaces b s).
Proof.
  intros Hsp H. revert b. induction H as [|c s Hc Hs IH]; intros b; cbn;
    [constructor|].
  destruct (is_space c); [destruct b|]; try constructor; auto.
Qed.

Lemma sub_spaces_plain b s :
  Forall (fun c => is_space c = true -> c = " "%char) (sub_spaces b s).
Proof.
  revert b. induction s as [|c s IH]; intros b; cbn; [constructor|].
  destruct (is_space c) eqn:Hc; [destruct b|]; try constructor; auto.
  congruence.
Qed.

Lemma find_title_capture tag1 tag2 html t :
  find_title [pat_heading tag1; pat_heading tag2; pat_any_heading] html = Some t
  \/ find_title [pat_heading tag1; pat_heading tag2] html = Some t ->
  exists mid, t = normalize_title (string_of_list_ascii mid)
    /\ length mid <= 200
    /\ Forall (fun c => in_class (CNot [lt]) c = true) mid.
Proof.
  assert (forall tag mo,
            search_str (pat_heading tag) html = Some mo
            \/ search_str pat_any_heading html = Some mo ->
            title_of (Some mo) = Some t ->
            exists mid, t = normalize_title (string_of_list_ascii mid)
              /\ length mid <= 200
              /\ Forall (fun c => in_class (CNot [lt]) c = true) mid) as Hone.
  { intros tag mo Hs Ht.
    destruct (heading_capture tag html mo Hs) as (mid & Hg & Hlen & Hall).
    cbn in Ht. rewrite Hg in Ht. injection Ht as <-. by exists mid. }
  cbn [find_title].
  destruct (search_str (pat_heading tag1) html) as [m1|] eqn:H1.
  { intros [Ht | Ht]; apply (Hone tag1 m1); auto. }
  destruct (search_str (pat_heading tag2) html) as [m2|] eqn:H2.
  { intros [Ht | Ht]; apply (Hone tag2 m2); auto. }
  destruct (search_str pat_any_heading html) as [m3|] eqn:H3.
  { intros [Ht | Ht]; [|discriminate]. apply (Hone tag1 m3); auto. }
  intros [Ht | Ht]; discriminate.
Qed.

Lemma string_length_of_list (l : list ascii) :
  String.length (string_of_list_ascii l) = length l.
Proof. induction l as [|c l IH]; cbn; [done | by rewrite IH]. Qed.

(** X25.  The title of an extraction is normalized: it has at most 200
    characters, no white space at its ends, no white space character other
    than the space, and no opening angle bracket. *)
Theorem title_is_normalized (html : string) (e : extraction) (t : string) :
  Phone.extract_activity html = Ok e
  \/ Telegram.extract_activity html = Ok e
  \/ Monitor.extract_activity html = Ok e ->
  title e = Some t ->
  String.length t <= 200
  /\ strip t = t
  /\ Forall (fun c => (is_space c = true -> c = " "%char) /\ c <> lt)
            (list_ascii_of_string t).
Proof.
  intros He Ht.
  assert (exists mid, t = normalize_title (string_of_list_ascii mid)
            /\ length mid <= 200
            /\ Forall (fun c => in_class (CNot [lt]) c = true) mid)
    as (mid & -> & Hlen & Hall).
  { apply (find_title_capture "h1" "h2" html).
    destruct He as [He | [He | He]].
    - rewrite phone_extract_eq in He. injection He as <-.
      destruct (_ && _); [discriminate | by left].
    - rewrite telegram_extract_eq in He. injection He as <-.
      destruct (shows _ _); [discriminate | by right].
    - rewrite monitor_extract_eq in He. injection He as <-.
      destruct (shows _ _); [discriminate | by left]. }
  unfold normalize_title, strip.
  rewrite !list_ascii_of_string_of_list_ascii.
  rewrite strip_list_idempotent.
  repeat split.
  - rewrite string_length_of_list.
    pose proof (strip_list_length (sub_spaces false mid)).
    pose proof (sub_spaces_length false mid). lia.
  - apply strip_list_Forall.
    apply Forall_and. split; [apply sub_spaces_plain|].
    apply sub_spaces_Forall; [discriminate|].
    eapply Forall_impl; [exact Hall|]. cbn. intros c Hc ->.
    rewrite Ascii.eqb_refl in Hc. discriminate.
Qed.

Lemma title_is_normalized_witness :
  String.length "Quiz of the day" <= 200
  /\ strip "Quiz of the day" = "Quiz of the day"
  /\ Forall (fun c => (is_space c = true -> c = " "%char) /\ c <> lt)
            (list_ascii_of_string "Quiz of the day").
Proof.
  apply (title_is_normalized html_heading
           {| activity_id := None; accepting := false;
              title := Some "Quiz of the day" |} "Quiz of the day").
  - left. vm_compute. reflexivity.
  - reflexivity.
Defined.
